(** * ProxyDashboard: the inspection session of proxy.py's dashboard plugin

    A shallow embedding of [src/dashboard/dashboard.py]: the websocket
    control handler ([on_websocket_message], [on_websocket_close],
    [shutdown_relay], [reply]) as state-passing code in a small
    state-and-exception monad, and the relay worker ([relay_events]) as a
    loop over what the worker observes of its channel and stop signal. *)

From Stdlib Require Import String List ZArith Bool Lia Arith.
From Stdlib Require Import Floats.SpecFloat.
Import ListNotations.
Local Open Scope string_scope.

(** ** Python values *)

Definition bytes := list Byte.byte.

#[local] Set Warnings "-register-all".

(** What [json.loads] returns and [json.dumps] accepts.  A [dict] keeps its
    keys in insertion order, as Python's does. *)
Inductive json : Type :=
| JNone
| JBool (b : bool)
| JInt (z : Z)
| JFloat (f : spec_float)
| JStr (s : string)
| JList (l : list json)
| JDict (d : list (string * json)).

Definition pydict := list (string * json).

(** [d[k]] on a dict: the value under the first entry for [k]. *)
Fixpoint dict_get (k : string) (d : pydict) : option json :=
  match d with
  | [] => None
  | (k', v) :: rest => if String.eqb k' k then Some v else dict_get k rest
  end.

(** [d[k] = v]: an existing key keeps its place and takes the new value, a
    new key goes to the end. *)
Fixpoint dict_set (k : string) (v : json) (d : pydict) : pydict :=
  match d with
  | [] => [(k, v)]
  | (k', v') :: rest =>
      if String.eqb k' k then (k, v) :: rest else (k', v') :: dict_set k v rest
  end.

(** [x == 'literal']: only a str equal to the literal compares equal. *)
Definition py_eq_str (x : json) (s : string) : bool :=
  match x with
  | JStr t => String.eqb t s
  | _ => false
  end.

(** [assert data] / [if data] on [Optional[bytes]]: [None] and [b''] are falsy. *)
Definition truthy (data : option bytes) : bool :=
  match data with
  | Some (_ :: _) => true
  | _ => false
  end.

(** ** Exceptions and outcomes *)

Inductive exn : Type :=
| AssertionError
| UnicodeDecodeError
| JSONDecodeError
| TypeError
| KeyError (key : string)
| queue_Empty
| EOFError
| KeyboardInterrupt
| OtherError (name : string).

Inductive outcome (A : Type) : Type :=
| Returns (a : A)
| Raises (e : exn).
Arguments Returns {A} a.
Arguments Raises {A} e.

(** ** Frames *)

(** An incoming [WebsocketFrame]: the two attributes the handler reads. *)
Record WebsocketFrame : Type := mkFrame {
  data : option bytes;
  opcode : Z
}.

(** An outgoing frame [WebsocketFrame.text(bytes_(json.dumps(v)))].  The
    serializer is library code and deterministic, so the frame is
    represented by the value [v] it serializes. *)
Inductive client_frame : Type :=
| WebsocketFrame_text (v : json).

(** ** The plugin object and what surrounds it *)

(** Identities of the objects the handler allocates: [threading.Event()],
    [RELAY_MANAGER.Queue()] and [threading.Thread(...)] each give a new
    object; [uuid.uuid4()] is taken not to repeat, so the identifier it
    returns is represented by the number of the draw.  Its [hex] is 32
    digits long, hence truthy. *)
Definition handle := nat.
Definition uuid := nat.

(** The five attributes set by [__init__]. *)
Record ProxyDashboard : Type := mkDashboard {
  inspection_enabled : bool;
  relay_thread : option handle;
  relay_shutdown : option handle;
  relay_channel : option handle;
  relay_sub_id : option uuid
}.

(** [__init__] *)
Definition init : ProxyDashboard :=
  mkDashboard false None None None None.

(** [self.<attribute> = value] *)
Inductive attr_write : Type :=
| inspection_enabled_is (b : bool)
| relay_thread_is (t : option handle)
| relay_shutdown_is (e : option handle)
| relay_channel_is (q : option handle)
| relay_sub_id_is (u : option uuid).

Definition write (w : attr_write) (s : ProxyDashboard) : ProxyDashboard :=
  match w with
  | inspection_enabled_is b =>
      mkDashboard b (relay_thread s) (relay_shutdown s) (relay_channel s) (relay_sub_id s)
  | relay_thread_is t =>
      mkDashboard (inspection_enabled s) t (relay_shutdown s) (relay_channel s) (relay_sub_id s)
  | relay_shutdown_is e =>
      mkDashboard (inspection_enabled s) (relay_thread s) e (relay_channel s) (relay_sub_id s)
  | relay_channel_is q =>
      mkDashboard (inspection_enabled s) (relay_thread s) (relay_shutdown s) q (relay_sub_id s)
  | relay_sub_id_is u =>
      mkDashboard (inspection_enabled s) (relay_thread s) (relay_shutdown s) (relay_channel s) u
  end.

Inductive log_level : Type := INFO | ERROR.

Inductive log_arg : Type :=
| LogText (s : string)
| LogData (d : option bytes)
| LogOpcode (z : Z).

(** The steps of a handler that can be observed: writes to the plugin's
    attributes and calls on its collaborators, in program order. *)
Inductive effect : Type :=
| setattr (w : attr_write)
| logger_call (level : log_level) (arg : log_arg)
| threading_Event (e : handle)
| RELAY_MANAGER_Queue (q : handle)
    (** [threading.Thread(target=relay_events, args=(shutdown, channel, self.client))] *)
| threading_Thread (t : handle) (shutdown : handle) (channel : handle)
| Thread_start (t : handle)
| uuid_uuid4 (u : uuid)
| event_queue_subscribe (u : uuid) (channel : handle)
| event_queue_unsubscribe (u : uuid)
| Event_set (e : handle)
| Thread_join (t : handle)
| client_queue (f : client_frame).

(** The state a handler runs in: the plugin object, the allocation counters
    and the steps taken so far (oldest first). *)
Record Runtime : Type := mkRuntime {
  self : ProxyDashboard;
  objects : nat;
  uuids : nat;
  trace : list effect
}.

(** ** A state-and-exception monad

    An exception leaves the state as it was when it was raised: Python does
    not undo attribute writes. *)
Definition M (A : Type) : Type := Runtime -> outcome A * Runtime.

Definition ret {A : Type} (a : A) : M A := fun rt => (Returns a, rt).

Definition raise {A : Type} (e : exn) : M A := fun rt => (Raises e, rt).

Definition bind {A B : Type} (c : M A) (k : A -> M B) : M B :=
  fun rt =>
    match c rt with
    | (Returns a, rt') => k a rt'
    | (Raises e, rt') => (Raises e, rt')
    end.

Declare Scope py_scope.
Delimit Scope py_scope with py.
Notation "x <- c ;; k" := (bind c (fun x => k))
  (at level 61, c at next level, right associativity) : py_scope.
Notation "c ;; k" := (bind c (fun _ => k))
  (at level 61, right associativity) : py_scope.
Local Open Scope py_scope.

Definition get_self : M ProxyDashboard := fun rt => (Returns (self rt), rt).

(** [self.<attribute> = value] *)
Definition assign (w : attr_write) : M unit :=
  fun rt =>
    (Returns tt,
     mkRuntime (write w (self rt)) (objects rt) (uuids rt) (trace rt ++ [setattr w])).

Definition emit (e : effect) : M unit :=
  fun rt => (Returns tt, mkRuntime (self rt) (objects rt) (uuids rt) (trace rt ++ [e])).

Definition new_object : M handle :=
  fun rt => (Returns (objects rt), mkRuntime (self rt) (S (objects rt)) (uuids rt) (trace rt)).

Definition new_uuid : M uuid :=
  fun rt => (Returns (uuids rt), mkRuntime (self rt) (objects rt) (S (uuids rt)) (trace rt)).

(** [assert x] on an optional attribute, giving the object it holds. *)
Definition assert_present {A : Type} (x : option A) : M A :=
  match x with
  | Some a => ret a
  | None => raise AssertionError
  end.

(** [message[key]]: a dict is looked up ([KeyError] on a missing key); no
    other JSON value can be indexed by a str ([TypeError]). *)
Definition subscript (message : json) (key : string) : M json :=
  match message with
  | JDict d =>
      match dict_get key d with
      | Some v => ret v
      | None => raise (KeyError key)
      end
  | _ => raise TypeError
  end.

(** ** The control handler *)

(** [reply] (lines 149-153) *)
Definition reply (d : pydict) : M unit :=
  emit (client_queue (WebsocketFrame_text (JDict d))).

(** [shutdown_relay] (lines 132-147) *)
Definition shutdown_relay : M unit :=
  s <- get_self ;;
  if negb (inspection_enabled s) then ret tt
  else
    e <- assert_present (relay_shutdown s) ;;
    t <- assert_present (relay_thread s) ;;
    u <- assert_present (relay_sub_id s) ;;
    emit (event_queue_unsubscribe u) ;;
    emit (Event_set e) ;;
    emit (Thread_join t) ;;
    assign (relay_thread_is None) ;;
    assign (relay_shutdown_is None) ;;
    assign (relay_channel_is None) ;;
    assign (relay_sub_id_is None).

(** [on_websocket_open] (lines 77-78) *)
Definition on_websocket_open : M unit :=
  emit (logger_call INFO (LogText "app ws opened")).

(** [on_websocket_close] (lines 128-130) *)
Definition on_websocket_close : M unit :=
  emit (logger_call INFO (LogText "app ws closed")) ;;
  shutdown_relay.

Section Handler.

(** [json.loads] on the frame's bytes: a value, or the exception it raises. *)
Variable json_loads : bytes -> outcome json.

(** [self.flags.enable_events] *)
Variable enable_events : bool.

(** The body of the [try] (lines 82-83), with assertions enabled. *)
Definition decode (frame : WebsocketFrame) : outcome json :=
  match data frame with
  | Some (b :: bs) => json_loads (b :: bs)
  | _ => Raises AssertionError
  end.

(** The [if]/[elif] chain (lines 89-126).  [message['method']] is read by
    each test; nothing writes to [message], so one lookup stands for all. *)
Definition dispatch (frame : WebsocketFrame) (message : json) : M unit :=
  method <- subscript message "method" ;;
  if py_eq_str method "ping" then
    id <- subscript message "id" ;;
    reply [("id", id); ("response", JStr "pong")]
  else if py_eq_str method "enable_inspection" then
    if negb enable_events then
      id <- subscript message "id" ;;
      emit (client_queue (WebsocketFrame_text
              (JDict [("id", id); ("response", JStr "not enabled")])))
    else
      assign (inspection_enabled_is true) ;;
      e <- new_object ;;
      emit (threading_Event e) ;;
      assign (relay_shutdown_is (Some e)) ;;
      q <- new_object ;;
      emit (RELAY_MANAGER_Queue q) ;;
      assign (relay_channel_is (Some q)) ;;
      t <- new_object ;;
      emit (threading_Thread t e q) ;;
      assign (relay_thread_is (Some t)) ;;
      emit (Thread_start t) ;;
      u <- new_uuid ;;
      emit (uuid_uuid4 u) ;;
      assign (relay_sub_id_is (Some u)) ;;
      emit (event_queue_subscribe u q) ;;
      id <- subscript message "id" ;;
      reply [("id", id); ("response", JStr "inspection_enabled")]
  else if py_eq_str method "disable_inspection" then
    shutdown_relay ;;
    assign (inspection_enabled_is false) ;;
    id <- subscript message "id" ;;
    reply [("id", id); ("response", JStr "inspection_disabled")]
  else
    emit (logger_call INFO (LogData (data frame))) ;;
    emit (logger_call INFO (LogOpcode (opcode frame))) ;;
    id <- subscript message "id" ;;
    reply [("id", id); ("response", JStr "not_implemented")].

(** [on_websocket_message] (lines 80-126): only [UnicodeDecodeError] is
    caught; the handler logs the frame and returns. *)
Definition on_websocket_message (frame : WebsocketFrame) : M unit :=
  match decode frame with
  | Returns message => dispatch frame message
  | Raises UnicodeDecodeError =>
      emit (logger_call ERROR (LogData (data frame))) ;;
      emit (logger_call INFO (LogOpcode (opcode frame)))
  | Raises e => raise e
  end.

End Handler.

(** ** The relay worker *)

(** What one turn of the loop sees: the stop signal when the loop condition
    reads it, and what [channel.get(timeout=1)] does if it is called: it
    returns an event, or raises [queue.Empty] after the timeout, [EOFError]
    when the channel's manager is gone, [KeyboardInterrupt], or anything
    else. *)
Record observation : Type := mkObservation {
  is_set : bool;
  get : outcome pydict
}.

(** The worker's surroundings: what its [i]-th turn observes. *)
Definition schedule := nat -> observation.

(** Lines 163-167: tag the event and queue its serialization. *)
Definition push_message (ev : pydict) : client_frame :=
  WebsocketFrame_text (JDict (dict_set "push" (JStr "inspect_traffic") ev)).

(** [relay_events] (lines 155-173), from turn [i] on, with [client] the frames
    queued so far.  Tagging a dict and queueing a frame do not raise; an
    exception of [get] that no [except] clause names leaves the function.
    [None] when [fuel] turns do not reach an exit. *)
Fixpoint relay_events (fuel : nat) (env : schedule) (i : nat)
    (client : list client_frame) : option (outcome unit * list client_frame) :=
  match fuel with
  | O => None
  | S fuel' =>
      if is_set (env i) then Some (Returns tt, client)
      else
        match get (env i) with
        | Returns ev => relay_events fuel' env (S i) (client ++ [push_message ev])
        | Raises queue_Empty => relay_events fuel' env (S i) client
        | Raises EOFError => Some (Returns tt, client)
        | Raises KeyboardInterrupt => Some (Returns tt, client)
        | Raises e => Some (Raises e, client)
        end
  end.

(** ** Vocabulary of the specification *)

(** The session states of the specification.  The stop signal
    ([relay_shutdown]) is created and dropped together with the worker. *)
Definition Idle (s : ProxyDashboard) : Prop := s = init.

Definition Inspecting (s : ProxyDashboard) : Prop :=
  exists t e q u, s = mkDashboard true (Some t) (Some e) (Some q) (Some u).

Definition present {A : Type} (x : option A) : bool :=
  match x with Some _ => true | None => false end.

(** The all-or-nothing invariant: the flag is set exactly when subscription
    id, channel and worker handle are all present, and none of them is
    present otherwise. *)
Definition group_invariant (s : ProxyDashboard) : bool :=
  if inspection_enabled s
  then present (relay_sub_id s) && present (relay_channel s) && present (relay_thread s)
  else negb (present (relay_sub_id s)) && negb (present (relay_channel s))
       && negb (present (relay_thread s)).

Definition is_reply (e : effect) : bool :=
  match e with client_queue _ => true | _ => false end.

(** The frames queued on the client connection. *)
Definition replies (tr : list effect) : list effect := filter is_reply tr.

(** Steps that start background work or register with the bus. *)
Definition starts_relay (e : effect) : bool :=
  match e with
  | threading_Thread _ _ _ | Thread_start _ | event_queue_subscribe _ _ => true
  | _ => false
  end.

(** Steps that tear a relay down. *)
Definition stops_relay (e : effect) : bool :=
  match e with
  | event_queue_unsubscribe _ | Event_set _ | Thread_join _ => true
  | _ => false
  end.

(** Modelled from the spec: the event bus ([proxy.core.event], not under
    src/).  [subscribe(id, channel)] registers the channel until
    [unsubscribe(id)] deregisters it. *)
Definition bus_step (subs : list (uuid * handle)) (e : effect) : list (uuid * handle) :=
  match e with
  | event_queue_subscribe u q => subs ++ [(u, q)]
  | event_queue_unsubscribe u => filter (fun p => negb (Nat.eqb (fst p) u)) subs
  | _ => subs
  end.

Definition subscriptions (tr : list effect) : list (uuid * handle) :=
  fold_left bus_step tr [].

(** Threads started and not yet joined. *)
Definition worker_step (ws : list handle) (e : effect) : list handle :=
  match e with
  | Thread_start t => ws ++ [t]
  | Thread_join t => filter (fun t' => negb (Nat.eqb t' t)) ws
  | _ => ws
  end.

Definition live_workers (tr : list effect) : list handle :=
  fold_left worker_step tr [].

(** A payload the handler cannot use as a control message: empty, rejected
    by [json.loads], not an object, or an object without [method] or [id]. *)
Definition malformed (json_loads : bytes -> outcome json) (frame : WebsocketFrame) : Prop :=
  match decode json_loads frame with
  | Raises _ => True
  | Returns (JDict d) => dict_get "method" d = None \/ dict_get "id" d = None
  | Returns _ => True
  end.

(** The first turn at or after [i] that ends the loop is [i + n]: the stop
    signal is set, or [get] raises something other than [queue.Empty]. *)
Definition ends_loop (o : observation) : bool :=
  if is_set o then true
  else match get o with
       | Returns _ => false
       | Raises queue_Empty => false
       | Raises _ => true
       end.

(** Events received in turns [i .. i+n-1]. *)
Fixpoint received (env : schedule) (i n : nat) : list pydict :=
  match n with
  | O => []
  | S n' =>
      match get (env i) with
      | Returns ev => ev :: received env (S i) n'
      | Raises _ => received env (S i) n'
      end
  end.

(** How the loop leaves at an ending turn. *)
Definition exit_of (o : observation) : outcome unit :=
  if is_set o then Returns tt
  else match get o with
       | Raises EOFError => Returns tt
       | Raises KeyboardInterrupt => Returns tt
       | Raises e => Raises e
       | Returns _ => Returns tt
       end.

(** ** Sample inputs *)

Definition dquote : string := String (Ascii.ascii_of_nat 34) "".

Definition quoted (s : string) : string := dquote ++ s ++ dquote.

(** The text of a JSON object whose values are strings. *)
Definition object_text (kvs : list (string * string)) : string :=
  "{" ++ String.concat ", " (map (fun kv => quoted (fst kv) ++ ": " ++ quoted (snd kv)) kvs)
      ++ "}".

Definition object_value (kvs : list (string * string)) : json :=
  JDict (map (fun kv => (fst kv, JStr (snd kv))) kvs).

Definition sample_messages : list (list (string * string)) :=
  [ [("id", "1"); ("method", "ping")];
    [("id", "2"); ("method", "enable_inspection")];
    [("id", "3"); ("method", "disable_inspection")];
    [("id", "4"); ("method", "status")];
    [("method", "enable_inspection")];
    [("id", "5")] ].

(** [json.loads] on the sample payloads: the objects above, the byte [0xff]
    (not UTF-8), and text that is not JSON. *)
Definition sample_loads (b : bytes) : outcome json :=
  match find (fun kvs => String.eqb (object_text kvs) (string_of_list_byte b)) sample_messages with
  | Some kvs => Returns (object_value kvs)
  | None =>
      match b with
      | [Byte.xff] => Raises UnicodeDecodeError
      | _ => Raises JSONDecodeError
      end
  end.

Definition text_frame (kvs : list (string * string)) : WebsocketFrame :=
  mkFrame (Some (list_byte_of_string (object_text kvs))) 1.

Definition fresh_runtime : Runtime := mkRuntime init 0 0 [].

(** Run a handler for its final state. *)
Definition after (c : M unit) (rt : Runtime) : Runtime := snd (c rt).

Definition enable_frame := text_frame [("id", "2"); ("method", "enable_inspection")].
Definition disable_frame := text_frame [("id", "3"); ("method", "disable_inspection")].


(** An empty frame, for the payloads that need none. *)
Definition empty_frame : WebsocketFrame := mkFrame (Some []) 1.

(** The session after one successful [enable_inspection]. *)
Definition inspecting_runtime : Runtime :=
  after (on_websocket_message sample_loads true enable_frame) fresh_runtime.

(** ** Well-formed sessions *)

(** The two states of the specification, and nothing in between. *)
Definition consistent (s : ProxyDashboard) : Prop := Idle s \/ Inspecting s.

Definition below (n : nat) (x : option nat) : Prop :=
  match x with
  | Some h => h < n
  | None => True
  end.

(** Every object the plugin holds was allocated earlier. *)
Definition owned (rt : Runtime) : Prop :=
  below (objects rt) (relay_thread (self rt))
  /\ below (objects rt) (relay_shutdown (self rt))
  /\ below (objects rt) (relay_channel (self rt))
  /\ below (uuids rt) (relay_sub_id (self rt)).

(** The states a connection goes through while it is open. *)
Inductive reachable (json_loads : bytes -> outcome json) (enable_events : bool)
  : Runtime -> Prop :=
| reach_init : reachable json_loads enable_events fresh_runtime
| reach_open rt :
    reachable json_loads enable_events rt ->
    reachable json_loads enable_events (after on_websocket_open rt)
| reach_message rt frame :
    reachable json_loads enable_events rt ->
    reachable json_loads enable_events
      (after (on_websocket_message json_loads enable_events frame) rt).

(** ** Order of steps *)

Fixpoint index_of (p : effect -> bool) (tr : list effect) : option nat :=
  match tr with
  | [] => None
  | e :: rest => if p e then Some 0 else option_map S (index_of p rest)
  end.

(** Both steps occur, and the first [p] comes before the first [q]. *)
Definition before (p q : effect -> bool) (tr : list effect) : bool :=
  match index_of p tr, index_of q tr with
  | Some i, Some j => Nat.ltb i j
  | _, _ => false
  end.

Definition is_flag_on (e : effect) : bool :=
  match e with setattr (inspection_enabled_is true) => true | _ => false end.
Definition is_flag_write (e : effect) : bool :=
  match e with setattr (inspection_enabled_is _) => true | _ => false end.
Definition is_new_channel (e : effect) : bool :=
  match e with RELAY_MANAGER_Queue _ => true | _ => false end.
Definition is_new_id (e : effect) : bool :=
  match e with uuid_uuid4 _ => true | _ => false end.
Definition is_subscribe (e : effect) : bool :=
  match e with event_queue_subscribe _ _ => true | _ => false end.
Definition is_start (e : effect) : bool :=
  match e with Thread_start _ => true | _ => false end.

(** The order the specification gives for a successful [enable_inspection]:
    identifier and channel, registration with the bus, worker start,
    transition, reply. *)
Definition specified_enable_order (tr : list effect) : bool :=
  before is_new_id is_subscribe tr && before is_new_channel is_subscribe tr
  && before is_subscribe is_start tr && before is_start is_flag_on tr
  && before is_flag_on is_reply tr.

(** The order of lines 103-117: transition, channel, worker start,
    identifier, registration with the bus, reply. *)
Definition source_enable_order (tr : list effect) : bool :=
  before is_flag_on is_new_channel tr && before is_new_channel is_start tr
  && before is_start is_new_id tr && before is_new_id is_subscribe tr
  && before is_subscribe is_reply tr.

(** What "logged and dropped" asks of a handler run: it returns, queues
    nothing on the connection and leaves the plugin's attributes alone. *)
Definition dropped (json_loads : bytes -> outcome json) (enable_events : bool)
    (frame : WebsocketFrame) (rt : Runtime) : Prop :=
  let r := on_websocket_message json_loads enable_events frame rt in
  fst r = Returns tt
  /\ replies (trace (snd r)) = replies (trace rt)
  /\ self (snd r) = self rt.

(** Whether a decoded message can be indexed by a key at all. *)
Definition is_object (message : json) : bool :=
  match message with JDict _ => true | _ => false end.

(** The steps of a teardown that goes through (lines 140-147). *)
Definition teardown_steps (t e u : nat) : list effect :=
  [event_queue_unsubscribe u; Event_set e; Thread_join t;
   setattr (relay_thread_is None); setattr (relay_shutdown_is None);
   setattr (relay_channel_is None); setattr (relay_sub_id_is None)].

Definition response (id : json) (text : string) : effect :=
  client_queue (WebsocketFrame_text (JDict [("id", id); ("response", JStr text)])).

(** A run started at turn [i] with [client] queued ends [n] turns later, at
    the first ending turn, with outcome [r] and [c'] queued. *)
Definition ends_at (env : schedule) (fuel i : nat) (client : list client_frame)
    (r : outcome unit) (c' : list client_frame) : Prop :=
  exists n,
    n < fuel
    /\ ends_loop (env (i + n)) = true
    /\ (forall k, k < n -> ends_loop (env (i + k)) = false)
    /\ r = exit_of (env (i + n))
    /\ c' = (client ++ map push_message (received env i n))%list.

(** [n] is the first turn that ends the loop. *)
Definition first_ending (env : schedule) (n : nat) : Prop :=
  ends_loop (env n) = true /\ forall k, k < n -> ends_loop (env k) = false.

(** Sample schedules: an event, a timeout, then the stop signal; and an
    event that already has a [push] field, then the stop signal. *)
Definition sample_event : pydict :=
  [("request_id", JStr "r1"); ("event_name", JStr "WORK_STARTED")].

Definition sample_schedule : schedule :=
  fun i =>
    match i with
    | 0 => mkObservation false (Returns sample_event)
    | 1 => mkObservation false (Raises queue_Empty)
    | _ => mkObservation true (Raises queue_Empty)
    end.

Definition push_schedule : schedule :=
  fun i =>
    match i with
    | 0 => mkObservation false (Returns [("push", JStr "x")])
    | _ => mkObservation true (Raises queue_Empty)
    end.

(** ** Replies *)

(** The [response] text the [if]/[elif] chain of lines 89-126 answers a
    method with. *)
Definition response_text (enable_events : bool) (method : json) : string :=
  if py_eq_str method "ping" then "pong"
  else if py_eq_str method "enable_inspection" then
    if enable_events then "inspection_enabled" else "not enabled"
  else if py_eq_str method "disable_inspection" then "inspection_disabled"
  else "not_implemented".

(** A method that neither enables nor disables inspection. *)
Definition leaves_relay_alone (method : json) : bool :=
  negb (py_eq_str method "enable_inspection")
  && negb (py_eq_str method "disable_inspection").

(** The steps of lines 103-115, before the reply, for a runtime whose next
    object is [n] and whose next identifier is [m]. *)
Definition enable_steps (n m : nat) : list effect :=
  [setattr (inspection_enabled_is true);
   threading_Event n;
   setattr (relay_shutdown_is (Some n));
   RELAY_MANAGER_Queue (1 + n);
   setattr (relay_channel_is (Some (1 + n)));
   threading_Thread (2 + n) n (1 + n);
   setattr (relay_thread_is (Some (2 + n)));
   Thread_start (2 + n);
   uuid_uuid4 m;
   setattr (relay_sub_id_is (Some m));
   event_queue_subscribe m (1 + n)].

(** What the session holds while inspecting is what it registered and
    started: the subscription is on the bus with the session's channel, the
    worker is unjoined and was created on the session's stop signal and
    channel. *)
Definition relay_registered (rt : Runtime) : Prop :=
  forall t e q u,
    self rt = mkDashboard true (Some t) (Some e) (Some q) (Some u) ->
    In (u, q) (subscriptions (trace rt))
    /\ In t (live_workers (trace rt))
    /\ In (threading_Thread t e q) (trace rt).

(** ** What one message can do *)

(** The exceptions that leave [on_websocket_message]: a failed [assert], an
    index into a value that is not an object, a missing [method] or [id], or
    what [json.loads] raised when that is not [UnicodeDecodeError]. *)
Definition escapes (json_loads : bytes -> outcome json) (frame : WebsocketFrame)
    (e : exn) : Prop :=
  e = AssertionError \/ e = TypeError \/ e = KeyError "method" \/ e = KeyError "id"
  \/ (decode json_loads frame = Raises e /\ e <> UnicodeDecodeError).

(** How a branch ends: with its reply, or with [KeyError] because the
    message has no [id] to put in it. *)
Definition reply_tail (o : outcome unit) (tail : list effect) (text : string) : Prop :=
  (exists id, o = Returns tt /\ tail = [response id text])
  \/ (o = Raises (KeyError "id") /\ tail = []).

Definition is_log (e : effect) : bool :=
  match e with logger_call _ _ => true | _ => false end.

(** Steps that only log and, at most, reply. *)
Definition quiet (o : outcome unit) (steps : list effect) : Prop :=
  exists logs tail,
    steps = (logs ++ tail)%list
    /\ forallb is_log logs = true
    /\ ((o = Returns tt /\ tail = []) \/ exists text, reply_tail o tail text).

(** ** Routes and plain HTTP requests *)

(** [httpProtocolTypes] *)
Inductive httpProtocolTypes : Type := HTTP | HTTPS | WEBSOCKET.

Fixpoint bytes_eqb (x y : bytes) : bool :=
  match x, y with
  | [], [] => true
  | a :: x', b :: y' => Byte.eqb a b && bytes_eqb x' y'
  | _, _ => false
  end.

(** A bytes literal. *)
Definition b_ (s : string) : bytes := list_byte_of_string s.

(** [routes] (lines 45-58) *)
Definition routes : list (httpProtocolTypes * bytes) :=
  [ (HTTP, b_ "/dashboard");
    (HTTPS, b_ "/dashboard");
    (HTTP, b_ "/dashboard/proxy.html");
    (HTTPS, b_ "/dashboard/proxy.html");
    (HTTP, b_ "/dashboard/");
    (HTTPS, b_ "/dashboard/");
    (WEBSOCKET, b_ "/dashboard") ].

(** [path.endswith('/')] *)
Fixpoint ends_with_sep (path : string) : bool :=
  match path with
  | EmptyString => false
  | String c EmptyString => Ascii.eqb c (Ascii.ascii_of_nat 47)
  | String _ rest => ends_with_sep rest
  end.

(** One turn of the loop of [posixpath.join]. *)
Definition join_step (path b : string) : string :=
  if String.prefix "/" b then b
  else if (String.eqb path "" || ends_with_sep path)%bool then (path ++ b)%string
  else (path ++ "/" ++ b)%string.

(** [os.path.join(a, *p)] on a POSIX host. *)
Definition os_path_join (a : string) (p : list string) : string :=
  fold_left join_step p a.

(** [httpStatusCodes], the one member used. *)
Inductive httpStatusCodes : Type := PERMANENT_REDIRECT.

(** What [handle_request] queues on the client: the result of
    [HttpWebServerPlugin.read_and_build_static_file_response(path)], kept as
    the call it is since it depends on the file system, or of
    [build_http_response(status, reason=..., headers=...)]. *)
Inductive http_response : Type :=
| read_and_build_static_file_response (path : string)
| build_http_response (status : httpStatusCodes) (reason : bytes)
    (headers : list (bytes * bytes)).

(** [headers[name]] *)
Fixpoint header_get (name : bytes) (headers : list (bytes * bytes)) : option bytes :=
  match headers with
  | [] => None
  | (k, v) :: rest => if bytes_eqb k name then Some v else header_get name rest
  end.

(** [handle_request] (lines 60-75), as the responses it queues on the
    client; [path] is [request.path], which may be [None]. *)
Definition handle_request (static_server_dir : string) (path : option bytes)
  : list http_response :=
  match path with
  | Some p =>
      if bytes_eqb p (b_ "/dashboard/") then
        [read_and_build_static_file_response
           (os_path_join static_server_dir ["dashboard"; "proxy.html"])]
      else if (bytes_eqb p (b_ "/dashboard")
               || bytes_eqb p (b_ "/dashboard/proxy.html"))%bool then
        [build_http_response PERMANENT_REDIRECT (b_ "Permanent Redirect")
           [(b_ "Location", b_ "/dashboard/");
            (b_ "Content-Length", b_ "0");
            (b_ "Connection", b_ "close")]]
      else []
  | None => []
  end.

(** * Properties *)

Local Open Scope list_scope.

(** ** Dicts *)

Lemma dict_get_set_same (k : string) (v : json) (d : pydict) :
  dict_get k (dict_set k v d) = Some v.
Proof.
  induction d as [| [k' v'] rest IH]; simpl.
  - now rewrite String.eqb_refl.
  - destruct (String.eqb k' k) eqn:E; simpl.
    + now rewrite String.eqb_refl.
    + now rewrite E.
Qed.

Lemma dict_get_set_other (k k' : string) (v : json) (d : pydict) :
  k <> k' -> dict_get k' (dict_set k v d) = dict_get k' d.
Proof.
  intros Hne. induction d as [| [k0 v0] rest IH]; simpl.
  - apply String.eqb_neq in Hne. now rewrite Hne.
  - destruct (String.eqb k0 k) eqn:E; simpl.
    + apply String.eqb_eq in E; subst k0.
      apply String.eqb_neq in Hne. now rewrite Hne.
    + destruct (String.eqb k0 k'); [reflexivity | exact IH].
Qed.

(** ** Running the handlers *)

Ltac run :=
  unfold on_websocket_message, dispatch, on_websocket_close, shutdown_relay, reply, after;
  repeat progress
    (cbn [bind subscript assert_present write negb fst snd
          self objects uuids trace
          inspection_enabled relay_thread relay_shutdown relay_channel relay_sub_id];
     unfold get_self, assign, emit, new_object, new_uuid, ret, raise).

Ltac run_in H :=
  unfold on_websocket_message, dispatch, on_websocket_close, shutdown_relay, reply, after in H;
  repeat progress
    (cbn [bind subscript assert_present write negb fst snd
          self objects uuids trace
          inspection_enabled relay_thread relay_shutdown relay_channel relay_sub_id] in H;
     unfold get_self, assign, emit, new_object, new_uuid, ret, raise in H).

Ltac tidy := repeat rewrite <- app_assoc; cbn [app].

Lemma shutdown_relay_idle (rt : Runtime) :
  inspection_enabled (self rt) = false -> shutdown_relay rt = (Returns tt, rt).
Proof. intros H. run. now rewrite H. Qed.

Lemma shutdown_relay_inspecting (rt : Runtime) (t e u : nat) :
  inspection_enabled (self rt) = true ->
  relay_thread (self rt) = Some t ->
  relay_shutdown (self rt) = Some e ->
  relay_sub_id (self rt) = Some u ->
  shutdown_relay rt =
    (Returns tt,
     mkRuntime (mkDashboard true None None None None) (objects rt) (uuids rt)
       (trace rt ++ [event_queue_unsubscribe u; Event_set e; Thread_join t;
                     setattr (relay_thread_is None); setattr (relay_shutdown_is None);
                     setattr (relay_channel_is None); setattr (relay_sub_id_is None)])).
Proof.
  intros He Ht Hs Hu. run. rewrite He, Hs, Ht, Hu. cbn. rewrite He. tidy. reflexivity.
Qed.

Lemma decode_dispatch loads flag frame message :
  decode loads frame = Returns message ->
  on_websocket_message loads flag frame = dispatch flag frame message.
Proof. intros H. unfold on_websocket_message. now rewrite H. Qed.

Lemma enable_off loads frame d id rt :
  decode loads frame = Returns (JDict d) ->
  dict_get "method" d = Some (JStr "enable_inspection") ->
  dict_get "id" d = Some id ->
  on_websocket_message loads false frame rt =
    (Returns tt,
     mkRuntime (self rt) (objects rt) (uuids rt)
       (trace rt ++ [client_queue (WebsocketFrame_text
                        (JDict [("id", id); ("response", JStr "not enabled")]))])).
Proof.
  intros Hd Hm Hi. rewrite (decode_dispatch _ _ _ _ Hd).
  run. rewrite Hm. cbn. rewrite Hi. reflexivity.
Qed.

Lemma enable_on loads frame d id rt :
  decode loads frame = Returns (JDict d) ->
  dict_get "method" d = Some (JStr "enable_inspection") ->
  dict_get "id" d = Some id ->
  on_websocket_message loads true frame rt =
    (Returns tt,
     mkRuntime
       (mkDashboard true (Some (2 + objects rt)) (Some (objects rt))
          (Some (1 + objects rt)) (Some (uuids rt)))
       (3 + objects rt) (1 + uuids rt)
       (trace rt ++
        [setattr (inspection_enabled_is true);
         threading_Event (objects rt);
         setattr (relay_shutdown_is (Some (objects rt)));
         RELAY_MANAGER_Queue (1 + objects rt);
         setattr (relay_channel_is (Some (1 + objects rt)));
         threading_Thread (2 + objects rt) (objects rt) (1 + objects rt);
         setattr (relay_thread_is (Some (2 + objects rt)));
         Thread_start (2 + objects rt);
         uuid_uuid4 (uuids rt);
         setattr (relay_sub_id_is (Some (uuids rt)));
         event_queue_subscribe (uuids rt) (1 + objects rt);
         client_queue (WebsocketFrame_text
            (JDict [("id", id); ("response", JStr "inspection_enabled")]))])).
Proof.
  intros Hd Hm Hi. rewrite (decode_dispatch _ _ _ _ Hd).
  run. rewrite Hm. cbn. rewrite Hi. cbn. tidy. reflexivity.
Qed.

(** ** Invariants of the message handler *)

Lemma shutdown_relay_consistent (rt : Runtime) :
  consistent (self rt) ->
  exists tr,
    shutdown_relay rt =
      (Returns tt,
       mkRuntime (mkDashboard (inspection_enabled (self rt)) None None None None)
         (objects rt) (uuids rt) (trace rt ++ tr))
    /\ replies tr = [].
Proof.
  intros [Hidle | (t & e & q & u & Hs)].
  - exists []. rewrite shutdown_relay_idle by now rewrite Hidle.
    rewrite app_nil_r. unfold Idle in Hidle. destruct rt as [s n m tr]; cbn in *. now subst s.
  - eexists. rewrite (shutdown_relay_inspecting rt t e u) by now rewrite Hs.
    rewrite Hs. cbn. split; reflexivity.
Qed.

Lemma on_websocket_message_consistent loads flag frame rt :
  consistent (self rt) ->
  consistent (self (after (on_websocket_message loads flag frame) rt)).
Proof.
  intros Hc. unfold after, on_websocket_message.
  destruct (decode loads frame) as [message | e].
  2:{ destruct e; exact Hc. }
  unfold dispatch, bind at 1.
  destruct message; try exact Hc.
  unfold subscript at 1. destruct (dict_get "method" d) as [m |]; [| exact Hc].
  cbn [ret].
  destruct (py_eq_str m "ping").
  { run. destruct (dict_get "id" d); exact Hc. }
  destruct (py_eq_str m "enable_inspection").
  { destruct flag.
    - run. destruct (dict_get "id" d); cbn; right; repeat eexists.
    - run. destruct (dict_get "id" d); exact Hc. }
  destruct (py_eq_str m "disable_inspection").
  { destruct (shutdown_relay_consistent rt Hc) as (tr & Hrun & _).
    unfold bind at 1. rewrite Hrun.
    run. destruct (dict_get "id" d); cbn; left; reflexivity. }
  run. destruct (dict_get "id" d); exact Hc.
Qed.

(** The three ways [shutdown_relay] can go, in any state. *)
Lemma shutdown_relay_cases (rt : Runtime) :
  (inspection_enabled (self rt) = false /\ shutdown_relay rt = (Returns tt, rt))
  \/ (inspection_enabled (self rt) = true
      /\ shutdown_relay rt = (Raises AssertionError, rt))
  \/ (exists t e u,
        inspection_enabled (self rt) = true
        /\ relay_thread (self rt) = Some t
        /\ relay_shutdown (self rt) = Some e
        /\ relay_sub_id (self rt) = Some u
        /\ shutdown_relay rt =
             (Returns tt,
              mkRuntime (mkDashboard true None None None None) (objects rt) (uuids rt)
                (trace rt ++
                 [event_queue_unsubscribe u; Event_set e; Thread_join t;
                  setattr (relay_thread_is None); setattr (relay_shutdown_is None);
                  setattr (relay_channel_is None); setattr (relay_sub_id_is None)]))).
Proof.
  destruct (inspection_enabled (self rt)) eqn:He.
  2:{ left. split; [reflexivity | now apply shutdown_relay_idle]. }
  right.
  destruct (relay_shutdown (self rt)) as [e |] eqn:Hs.
  2:{ left. split; [reflexivity |]. run. now rewrite He, Hs. }
  destruct (relay_thread (self rt)) as [t |] eqn:Ht.
  2:{ left. split; [reflexivity |]. run. now rewrite He, Hs, Ht. }
  destruct (relay_sub_id (self rt)) as [u |] eqn:Hu.
  2:{ left. split; [reflexivity |]. run. now rewrite He, Hs, Ht, Hu. }
  right. exists t, e, u. repeat split; try reflexivity.
  now apply shutdown_relay_inspecting.
Qed.

Lemma owned_cleared (b : bool) (n m : nat) (tr : list effect) :
  owned (mkRuntime (mkDashboard b None None None None) n m tr).
Proof. repeat split. Qed.

Lemma on_websocket_message_owned loads flag frame rt :
  owned rt -> owned (after (on_websocket_message loads flag frame) rt).
Proof.
  intros Ho. unfold after, on_websocket_message.
  destruct (decode loads frame) as [message | e].
  2:{ destruct e; exact Ho. }
  unfold dispatch, bind at 1.
  destruct message; try exact Ho.
  unfold subscript at 1. destruct (dict_get "method" d) as [m |]; [| exact Ho].
  cbn [ret].
  destruct (py_eq_str m "ping").
  { run. destruct (dict_get "id" d); exact Ho. }
  destruct (py_eq_str m "enable_inspection").
  { destruct flag.
    - run. destruct (dict_get "id" d); cbn; unfold owned; cbn; lia.
    - run. destruct (dict_get "id" d); exact Ho. }
  destruct (py_eq_str m "disable_inspection").
  { unfold bind at 1.
    destruct (shutdown_relay_cases rt)
      as [[_ Hrun] | [[_ Hrun] | (t & e & u & _ & _ & _ & _ & Hrun)]];
      rewrite Hrun.
    - run. destruct (dict_get "id" d); exact Ho.
    - exact Ho.
    - run. destruct (dict_get "id" d); apply owned_cleared. }
  run. destruct (dict_get "id" d); exact Ho.
Qed.

Lemma reachable_consistent loads flag rt :
  reachable loads flag rt -> consistent (self rt) /\ owned rt.
Proof.
  induction 1 as [| rt Hr [Hc Ho] | rt frame Hr [Hc Ho]].
  - split; [left; reflexivity | repeat split].
  - split; assumption.
  - split.
    + now apply on_websocket_message_consistent.
    + now apply on_websocket_message_owned.
Qed.

Lemma reachable_group_invariant loads flag rt :
  reachable loads flag rt -> group_invariant (self rt) = true.
Proof.
  intros Hr. destruct (reachable_consistent _ _ _ Hr) as [[Hi | (t & e & q & u & Hi)] _];
    rewrite Hi; reflexivity.
Qed.

Lemma replies_app (a b : list effect) :
  replies (a ++ b) = replies a ++ replies b.
Proof. apply filter_app. Qed.

Lemma replies_silent (a b : list effect) :
  replies b = [] -> replies (a ++ b) = replies a.
Proof. intros H. now rewrite replies_app, H, app_nil_r. Qed.

(** ** The session invariant (C1) *)

(** C1, at the input where the code breaks it: a session that enabled
    inspection and is then closed keeps [inspection_enabled = True] while
    subscription id, channel and worker handle are all [None].  Every state
    reached through messages alone satisfies the invariant
    ([reachable_group_invariant]); closing a second time trips the
    assertions of [shutdown_relay]. *)
Theorem close_breaks_group_invariant :
  reachable sample_loads true inspecting_runtime
  /\ group_invariant (self inspecting_runtime) = true
  /\ self (after on_websocket_close inspecting_runtime)
     = mkDashboard true None None None None
  /\ group_invariant (self (after on_websocket_close inspecting_runtime)) = false
  /\ fst (on_websocket_close (after on_websocket_close inspecting_runtime))
     = Raises AssertionError.
Proof.
  split; [apply reach_message, reach_init |].
  repeat split; vm_compute; reflexivity.
Qed.

(** ** Malformed payloads (C2) *)

Lemma dispatch_missing_id flag frame d m rt :
  dict_get "method" d = Some m ->
  dict_get "id" d = None ->
  let r := dispatch flag frame (JDict d) rt in
  (exists e, fst r = Raises e)
  /\ replies (trace (snd r)) = replies (trace rt)
  /\ (py_eq_str m "enable_inspection" && flag = false ->
      py_eq_str m "disable_inspection" = false ->
      self (snd r) = self rt).
Proof.
  intros Hm Hi r.
  assert (Hr : dispatch flag frame (JDict d) rt = r) by reflexivity. clearbody r.
  unfold dispatch, bind at 1, subscript at 1 in Hr. rewrite Hm in Hr. cbn [ret] in Hr.
  destruct (py_eq_str m "ping").
  { run_in Hr. rewrite Hi in Hr. subst r. cbn. eauto. }
  destruct (py_eq_str m "enable_inspection").
  { destruct flag.
    - run_in Hr. rewrite Hi in Hr. subst r. cbn. repeat split; eauto; try discriminate.
      tidy. now apply replies_silent.
    - run_in Hr. rewrite Hi in Hr. subst r. cbn. eauto. }
  destruct (py_eq_str m "disable_inspection").
  { unfold bind at 1 in Hr.
    destruct (shutdown_relay_cases rt)
      as [[_ Hrun] | [[_ Hrun] | (t & e & u & _ & _ & _ & _ & Hrun)]];
      rewrite Hrun in Hr.
    - run_in Hr. rewrite Hi in Hr. subst r. cbn. repeat split; eauto; try discriminate.
      now apply replies_silent.
    - subst r. cbn. repeat split; eauto; discriminate.
    - run_in Hr. rewrite Hi in Hr. subst r. cbn. repeat split; eauto; try discriminate.
      tidy. now apply replies_silent. }
  run_in Hr. rewrite Hi in Hr. subst r. cbn. repeat split; eauto.
  tidy. now apply replies_silent.
Qed.

(** C2, as stated, fails: an empty payload makes [assert frame.data] raise
    out of the handler, and an [enable_inspection] object without [id]
    starts the relay before [KeyError] is raised. *)
Lemma malformed_frames_not_dropped :
  (malformed sample_loads empty_frame
   /\ on_websocket_message sample_loads true empty_frame fresh_runtime
      = (Raises AssertionError, fresh_runtime)
   /\ ~ dropped sample_loads true empty_frame fresh_runtime)
  /\ (malformed sample_loads (text_frame [("method", "enable_inspection")])
      /\ fst (on_websocket_message sample_loads true
                (text_frame [("method", "enable_inspection")]) fresh_runtime)
         = Raises (KeyError "id")
      /\ self (after (on_websocket_message sample_loads true
                        (text_frame [("method", "enable_inspection")])) fresh_runtime)
         = mkDashboard true (Some 2) (Some 0) (Some 1) (Some 0)
      /\ ~ dropped sample_loads true
             (text_frame [("method", "enable_inspection")]) fresh_runtime).
Proof.
  split; repeat split; try (vm_compute; tauto).
  - intros (H & _). vm_compute in H. discriminate.
  - intros (H & _). vm_compute in H. discriminate.
Qed.

(** C2 (amended): no malformed frame is answered.  A payload that
    [json.loads] rejects with [UnicodeDecodeError] is logged and dropped: the
    handler returns and no attribute changes.  Any other malformed payload
    ends the handler with an exception and no attribute changed: the
    [AssertionError] of an empty payload, whatever else [json.loads] raised,
    [TypeError] for a value that is not an object, [KeyError] for an object
    without [method].  An object with [method] but without [id] runs its
    branch up to the reply it cannot build: an exception escapes, and the
    attributes are as before unless the method enables (capability on) or
    disables inspection. *)
Theorem malformed_frame_outcome loads flag frame rt :
  malformed loads frame ->
  let r := on_websocket_message loads flag frame rt in
  replies (trace (snd r)) = replies (trace rt)
  /\ (decode loads frame = Raises UnicodeDecodeError ->
      r = (Returns tt,
           mkRuntime (self rt) (objects rt) (uuids rt)
             (trace rt ++ [logger_call ERROR (LogData (data frame));
                           logger_call INFO (LogOpcode (opcode frame))])))
  /\ (truthy (data frame) = false -> r = (Raises AssertionError, rt))
  /\ (forall e, decode loads frame = Raises e -> e <> UnicodeDecodeError ->
      r = (Raises e, rt))
  /\ (forall message, decode loads frame = Returns message ->
      is_object message = false -> r = (Raises TypeError, rt))
  /\ (forall d, decode loads frame = Returns (JDict d) ->
      dict_get "method" d = None -> r = (Raises (KeyError "method"), rt))
  /\ (forall d m, decode loads frame = Returns (JDict d) ->
      dict_get "method" d = Some m ->
      (exists e, fst r = Raises e)
      /\ (py_eq_str m "enable_inspection" && flag = false ->
          py_eq_str m "disable_inspection" = false ->
          self (snd r) = self rt)).
Proof.
  intros Hmal r.
  assert (Hempty : truthy (data frame) = false -> decode loads frame = Raises AssertionError).
  { unfold decode, truthy. destruct (data frame) as [[| b bs] |]; now try discriminate. }
  split; [| split; [| split; [| split; [| split; [| split]]]]].
  - subst r. unfold malformed in Hmal. unfold on_websocket_message.
    destruct (decode loads frame) as [message | e] eqn:Hd.
    + destruct message; try reflexivity.
      destruct (dict_get "method" d) as [m |] eqn:Hm.
      * destruct Hmal as [Hmal | Hmal]; [discriminate |].
        now destruct (dispatch_missing_id flag frame d m rt Hm Hmal) as (_ & H & _).
      * unfold dispatch, bind, subscript. now rewrite Hm.
    + destruct e; try reflexivity. run. tidy. now apply replies_silent.
  - intros Hd. subst r. unfold on_websocket_message. rewrite Hd. run. tidy. reflexivity.
  - intros Ht. subst r. unfold on_websocket_message. now rewrite (Hempty Ht).
  - intros e Hd Hne. subst r. unfold on_websocket_message. rewrite Hd.
    destruct e; try reflexivity. now contradiction Hne.
  - intros message Hd Hobj. subst r. unfold on_websocket_message. rewrite Hd.
    destruct message; try reflexivity. discriminate.
  - intros d Hd Hm. subst r. unfold on_websocket_message. rewrite Hd.
    unfold dispatch, bind, subscript. now rewrite Hm.
  - intros d m Hd Hm. subst r. unfold malformed in Hmal. rewrite Hd in Hmal.
    destruct Hmal as [Hmal | Hmal]; [congruence |].
    unfold on_websocket_message. rewrite Hd.
    destruct (dispatch_missing_id flag frame d m rt Hm Hmal) as (He & _ & Hs).
    split; assumption.
Qed.

Lemma malformed_frame_outcome_witness :
  malformed sample_loads (mkFrame (Some [Byte.xff]) 2)
  /\ on_websocket_message sample_loads true (mkFrame (Some [Byte.xff]) 2) fresh_runtime
     = (Returns tt,
        mkRuntime init 0 0
          [logger_call ERROR (LogData (Some [Byte.xff])); logger_call INFO (LogOpcode 2)]).
Proof.
  assert (H : malformed sample_loads (mkFrame (Some [Byte.xff]) 2)) by exact I.
  split; [exact H |].
  exact (proj1 (proj2 (malformed_frame_outcome sample_loads true
                         (mkFrame (Some [Byte.xff]) 2) fresh_runtime H)) eq_refl).
Defined.

(** ** Teardown on the two paths *)

Lemma close_inspecting rt t e q u :
  self rt = mkDashboard true (Some t) (Some e) (Some q) (Some u) ->
  on_websocket_close rt =
    (Returns tt,
     mkRuntime (mkDashboard true None None None None) (objects rt) (uuids rt)
       (trace rt ++ logger_call INFO (LogText "app ws closed") :: teardown_steps t e u)).
Proof.
  intros Hs. unfold on_websocket_close, bind at 1, emit.
  rewrite (shutdown_relay_inspecting _ t e u); cbn [self]; try now rewrite Hs.
  cbn [objects uuids trace]. tidy. reflexivity.
Qed.

Lemma teardown_inspecting_disable loads flag frame d id rt t e q u :
  self rt = mkDashboard true (Some t) (Some e) (Some q) (Some u) ->
  decode loads frame = Returns (JDict d) ->
  dict_get "method" d = Some (JStr "disable_inspection") ->
  dict_get "id" d = Some id ->
  on_websocket_message loads flag frame rt =
    (Returns tt,
     mkRuntime init (objects rt) (uuids rt)
       (trace rt ++ teardown_steps t e u
          ++ [setattr (inspection_enabled_is false); response id "inspection_disabled"]))
  /\ replies (teardown_steps t e u ++ [setattr (inspection_enabled_is false)]) = [].
Proof.
  intros Hs Hd Hm Hi. split; [| reflexivity].
  rewrite (decode_dispatch _ _ _ _ Hd).
  unfold dispatch, bind at 1, subscript at 1. rewrite Hm. cbn -[shutdown_relay].
  unfold bind at 1.
  rewrite (shutdown_relay_inspecting rt t e u) by now rewrite Hs.
  run. rewrite Hi. cbn. tidy. reflexivity.
Qed.

(** ** Teardown (C3) *)

(** C3, as stated, fails: [shutdown_relay] clears the four relay attributes
    and leaves the enabled flag set, so a session closed while inspecting is
    not back in its initial state. *)
Lemma teardown_leaves_flag :
  Inspecting (self inspecting_runtime)
  /\ inspection_enabled (self (after shutdown_relay inspecting_runtime)) = true
  /\ self (after on_websocket_close inspecting_runtime) <> init.
Proof.
  split; [| split].
  - exists 2, 0, 1, 0. reflexivity.
  - reflexivity.
  - vm_compute. discriminate.
Qed.

(** C3 (amended): [shutdown_relay] returns at once when
    [inspection_enabled] is false.  Otherwise it unsubscribes the
    subscription id, sets the stop signal, joins the worker and then clears
    [relay_thread], [relay_shutdown], [relay_channel] and [relay_sub_id], in
    this order, when called for [disable_inspection] and when called for a
    closing connection.  On the [disable_inspection] path the handler clears
    [inspection_enabled] once teardown has returned, before it replies. *)
Theorem teardown_order (rt : Runtime) :
  (inspection_enabled (self rt) = false -> shutdown_relay rt = (Returns tt, rt))
  /\ (forall t e q u,
      self rt = mkDashboard true (Some t) (Some e) (Some q) (Some u) ->
      shutdown_relay rt =
        (Returns tt,
         mkRuntime (mkDashboard true None None None None) (objects rt) (uuids rt)
           (trace rt ++ teardown_steps t e u))
      /\ (let r := on_websocket_close rt in
          fst r = Returns tt
          /\ trace (snd r)
             = trace rt ++ logger_call INFO (LogText "app ws closed")
                        :: teardown_steps t e u
          /\ relay_thread (self (snd r)) = None
          /\ relay_shutdown (self (snd r)) = None
          /\ relay_channel (self (snd r)) = None
          /\ relay_sub_id (self (snd r)) = None)
      /\ (forall loads flag frame d id,
          decode loads frame = Returns (JDict d) ->
          dict_get "method" d = Some (JStr "disable_inspection") ->
          dict_get "id" d = Some id ->
          on_websocket_message loads flag frame rt =
            (Returns tt,
             mkRuntime init (objects rt) (uuids rt)
               (trace rt ++ teardown_steps t e u
                  ++ [setattr (inspection_enabled_is false);
                      response id "inspection_disabled"])))).
Proof.
  split; [apply shutdown_relay_idle |].
  intros t e q u Hs. split; [| split].
  - apply shutdown_relay_inspecting; now rewrite Hs.
  - rewrite (close_inspecting rt t e q u Hs). cbn. repeat split.
  - intros loads flag frame d id Hd Hm Hi.
    now apply (teardown_inspecting_disable loads flag frame d id rt t e q u).
Qed.

Lemma teardown_order_witness :
  shutdown_relay inspecting_runtime =
    (Returns tt,
     mkRuntime (mkDashboard true None None None None) 3 1
       (trace inspecting_runtime ++ teardown_steps 2 0 0)).
Proof.
  exact (proj1 (proj2 (teardown_order inspecting_runtime) 2 0 1 0 eq_refl)).
Defined.

(** ** [enable_inspection] without the capability (C4) *)

(** C4: with [enable_events] false, an [enable_inspection] message is
    answered [{id, response: "not enabled"}] and nothing else happens: no
    attribute changes (an idle session stays idle), no object is allocated,
    no thread is started and nothing is registered with the bus. *)
Theorem enable_without_capability loads frame d id rt :
  decode loads frame = Returns (JDict d) ->
  dict_get "method" d = Some (JStr "enable_inspection") ->
  dict_get "id" d = Some id ->
  let r := on_websocket_message loads false frame rt in
  r = (Returns tt,
       mkRuntime (self rt) (objects rt) (uuids rt)
         (trace rt ++ [response id "not enabled"]))
  /\ self (snd r) = self rt
  /\ (Idle (self rt) -> Idle (self (snd r)))
  /\ filter starts_relay (trace (snd r)) = filter starts_relay (trace rt)
  /\ subscriptions (trace (snd r)) = subscriptions (trace rt)
  /\ live_workers (trace (snd r)) = live_workers (trace rt).
Proof.
  intros Hd Hm Hi r. subst r. rewrite (enable_off _ _ _ _ _ Hd Hm Hi).
  cbn [fst snd self trace].
  repeat split.
  - trivial.
  - rewrite filter_app. cbn. apply app_nil_r.
  - unfold subscriptions. now rewrite fold_left_app.
  - unfold live_workers. now rewrite fold_left_app.
Qed.

Lemma enable_without_capability_witness :
  on_websocket_message sample_loads false enable_frame fresh_runtime
  = (Returns tt, mkRuntime init 0 0 [response (JStr "2") "not enabled"]).
Proof.
  exact (proj1 (enable_without_capability sample_loads enable_frame
                  [("id", JStr "2"); ("method", JStr "enable_inspection")]
                  (JStr "2") fresh_runtime eq_refl eq_refl eq_refl)).
Defined.

(** ** [disable_inspection] (C6) *)

Lemma py_eq_str_true (x : json) (s : string) : py_eq_str x s = true -> x = JStr s.
Proof.
  destruct x; cbn; try discriminate. intros H. apply String.eqb_eq in H. now subst.
Qed.

(** C6: a [disable_inspection] message, received idle or inspecting, is
    answered [{id, response: "inspection_disabled"}] as the last step and
    leaves the session idle.  Received idle, teardown returns at once: no
    exception, no join, and every attribute keeps its value. *)
Theorem disable_inspection_reply loads flag frame d id rt :
  decode loads frame = Returns (JDict d) ->
  dict_get "method" d = Some (JStr "disable_inspection") ->
  dict_get "id" d = Some id ->
  consistent (self rt) ->
  let r := on_websocket_message loads flag frame rt in
  fst r = Returns tt
  /\ Idle (self (snd r))
  /\ (exists steps,
        trace (snd r) = trace rt ++ steps ++ [response id "inspection_disabled"]
        /\ replies steps = [])
  /\ (Idle (self rt) ->
      shutdown_relay rt = (Returns tt, rt)
      /\ self (snd r) = self rt
      /\ r = (Returns tt,
              mkRuntime (self rt) (objects rt) (uuids rt)
                (trace rt ++ [setattr (inspection_enabled_is false);
                              response id "inspection_disabled"]))).
Proof.
  intros Hd Hm Hi Hc r.
  assert (Hidle : Idle (self rt) ->
                  r = (Returns tt,
                       mkRuntime (self rt) (objects rt) (uuids rt)
                         (trace rt ++ [setattr (inspection_enabled_is false);
                                       response id "inspection_disabled"]))).
  { intros Hs. subst r. rewrite (decode_dispatch _ _ _ _ Hd).
    unfold dispatch, bind at 1, subscript at 1. rewrite Hm. cbn -[shutdown_relay].
    unfold bind at 1. rewrite shutdown_relay_idle by now rewrite Hs.
    run. rewrite Hi. cbn. tidy. now rewrite Hs. }
  destruct Hc as [Hs | (t & e & q & u & Hs)].
  - rewrite (Hidle Hs). cbn [fst snd self trace].
    split; [reflexivity | split; [exact Hs | split]].
    + exists [setattr (inspection_enabled_is false)]. split; reflexivity.
    + intros _. repeat split. apply shutdown_relay_idle. now rewrite Hs.
  - destruct (teardown_inspecting_disable loads flag frame d id rt t e q u Hs Hd Hm Hi)
      as [Hrun Hsil].
    subst r. rewrite Hrun. cbn [fst snd self trace].
    split; [reflexivity | split; [reflexivity | split]].
    + exists (teardown_steps t e u ++ [setattr (inspection_enabled_is false)]).
      split; [now rewrite <- app_assoc | exact Hsil].
    + intros Hidle'. unfold Idle in Hidle'. rewrite Hs in Hidle'. discriminate.
Qed.

Lemma disable_inspection_reply_witness :
  on_websocket_message sample_loads true disable_frame fresh_runtime
  = (Returns tt,
     mkRuntime init 0 0
       [setattr (inspection_enabled_is false); response (JStr "3") "inspection_disabled"]).
Proof.
  destruct (disable_inspection_reply sample_loads true disable_frame
              [("id", JStr "3"); ("method", JStr "disable_inspection")]
              (JStr "3") fresh_runtime eq_refl eq_refl eq_refl (or_introl eq_refl))
    as (_ & _ & _ & H).
  exact (proj2 (proj2 (H eq_refl))).
Defined.

(** ** [enable_inspection] with the capability (C7, C8) *)

(** C7, as stated, fails: the source sets the flag first and starts the
    worker before it draws the identifier and registers with the bus. *)
Lemma enable_order_differs :
  specified_enable_order (trace inspecting_runtime) = false
  /\ source_enable_order (trace inspecting_runtime) = true
  /\ index_of is_flag_on (trace inspecting_runtime) = Some 0
  /\ index_of is_start (trace inspecting_runtime) = Some 7
  /\ index_of is_new_id (trace inspecting_runtime) = Some 8
  /\ index_of is_subscribe (trace inspecting_runtime) = Some 10.
Proof. repeat split. Qed.

(** The steps of lines 103-117, for a runtime whose next object is [n] and
    whose next identifier is [m]. *)
Lemma enable_steps_in_source_order (n m : nat) (id : json) :
  source_enable_order
    [setattr (inspection_enabled_is true);
     threading_Event n;
     setattr (relay_shutdown_is (Some n));
     RELAY_MANAGER_Queue (1 + n);
     setattr (relay_channel_is (Some (1 + n)));
     threading_Thread (2 + n) n (1 + n);
     setattr (relay_thread_is (Some (2 + n)));
     Thread_start (2 + n);
     uuid_uuid4 m;
     setattr (relay_sub_id_is (Some m));
     event_queue_subscribe m (1 + n);
     response id "inspection_enabled"] = true.
Proof. reflexivity. Qed.

(** C7 (amended): with [enable_events] true, an [enable_inspection] message
    makes the handler, in this order: set [inspection_enabled]; create the
    stop signal and a fresh channel; create and start the worker thread on
    (stop signal, channel, client); draw a fresh subscription identifier;
    register (identifier, channel) with the event bus; reply
    [{id, response: "inspection_enabled"}]. *)
Theorem enable_with_capability loads frame d id rt :
  decode loads frame = Returns (JDict d) ->
  dict_get "method" d = Some (JStr "enable_inspection") ->
  dict_get "id" d = Some id ->
  let e := objects rt in
  let q := 1 + objects rt in
  let t := 2 + objects rt in
  let u := uuids rt in
  let steps :=
    [setattr (inspection_enabled_is true);
     threading_Event e;
     setattr (relay_shutdown_is (Some e));
     RELAY_MANAGER_Queue q;
     setattr (relay_channel_is (Some q));
     threading_Thread t e q;
     setattr (relay_thread_is (Some t));
     Thread_start t;
     uuid_uuid4 u;
     setattr (relay_sub_id_is (Some u));
     event_queue_subscribe u q;
     response id "inspection_enabled"] in
  on_websocket_message loads true frame rt =
    (Returns tt,
     mkRuntime (mkDashboard true (Some t) (Some e) (Some q) (Some u))
       (3 + objects rt) (1 + uuids rt) (trace rt ++ steps))
  /\ Inspecting (self (after (on_websocket_message loads true frame) rt))
  /\ source_enable_order steps = true.
Proof.
  intros Hd Hm Hi e q t u steps. split; [| split].
  - apply (enable_on loads frame d id rt Hd Hm Hi).
  - unfold after. rewrite (enable_on loads frame d id rt Hd Hm Hi). cbn.
    now exists t, e, q, u.
  - apply enable_steps_in_source_order.
Qed.

Lemma enable_with_capability_witness :
  on_websocket_message sample_loads true enable_frame fresh_runtime =
    (Returns tt,
     mkRuntime (mkDashboard true (Some 2) (Some 0) (Some 1) (Some 0)) 3 1
       [setattr (inspection_enabled_is true);
        threading_Event 0;
        setattr (relay_shutdown_is (Some 0));
        RELAY_MANAGER_Queue 1;
        setattr (relay_channel_is (Some 1));
        threading_Thread 2 0 1;
        setattr (relay_thread_is (Some 2));
        Thread_start 2;
        uuid_uuid4 0;
        setattr (relay_sub_id_is (Some 0));
        event_queue_subscribe 0 1;
        response (JStr "2") "inspection_enabled"]).
Proof.
  exact (proj1 (enable_with_capability sample_loads enable_frame
                  [("id", JStr "2"); ("method", JStr "enable_inspection")]
                  (JStr "2") fresh_runtime eq_refl eq_refl eq_refl)).
Defined.

Lemma fold_bus_keeps (steps : list effect) (subs : list (uuid * handle)) p :
  filter stops_relay steps = [] -> In p subs -> In p (fold_left bus_step steps subs).
Proof.
  revert subs. induction steps as [| s rest IH]; intros subs Hno Hin; [exact Hin |].
  cbn [fold_left]. cbn [filter] in Hno.
  destruct s; cbn in Hno; try discriminate; apply IH; try assumption; cbn;
    try assumption.
  apply in_or_app. now left.
Qed.

Lemma fold_workers_keeps (steps : list effect) (ws : list handle) t :
  filter stops_relay steps = [] -> In t ws -> In t (fold_left worker_step steps ws).
Proof.
  revert ws. induction steps as [| s rest IH]; intros ws Hno Hin; [exact Hin |].
  cbn [fold_left]. cbn [filter] in Hno.
  destruct s; cbn in Hno; try discriminate; apply IH; try assumption; cbn;
    try assumption.
  apply in_or_app. now left.
Qed.

(** C8: an [enable_inspection] message received while inspecting, capability
    on, enables again without conditions.  The four relay attributes are
    overwritten with newly allocated objects, different from the ones held
    before; the handler makes no [unsubscribe], [set] or [join] call, so the
    earlier subscription stays registered and the earlier worker stays
    unjoined. *)
Theorem reenable_leaks loads frame d id rt t e q u :
  decode loads frame = Returns (JDict d) ->
  dict_get "method" d = Some (JStr "enable_inspection") ->
  dict_get "id" d = Some id ->
  self rt = mkDashboard true (Some t) (Some e) (Some q) (Some u) ->
  owned rt ->
  let r := on_websocket_message loads true frame rt in
  fst r = Returns tt
  /\ (exists t' e' q' u',
        self (snd r) = mkDashboard true (Some t') (Some e') (Some q') (Some u')
        /\ t' <> t /\ e' <> e /\ q' <> q /\ u' <> u)
  /\ (exists steps,
        trace (snd r) = trace rt ++ steps
        /\ filter stops_relay steps = []
        /\ last steps (response id "") = response id "inspection_enabled")
  /\ (In (u, q) (subscriptions (trace rt)) ->
      In (u, q) (subscriptions (trace (snd r))))
  /\ (In t (live_workers (trace rt)) -> In t (live_workers (trace (snd r)))).
Proof.
  intros Hd Hm Hi Hs Ho r. subst r.
  rewrite (enable_on loads frame d id rt Hd Hm Hi). cbn [fst snd self trace].
  destruct Ho as (Ht & He & Hq & Hu). rewrite Hs in Ht, He, Hq, Hu. cbn in Ht, He, Hq, Hu.
  split; [reflexivity |]. split; [| split; [| split]].
  - exists (2 + objects rt), (objects rt), (1 + objects rt), (uuids rt).
    repeat split; lia.
  - eexists. split; [reflexivity |]. split; reflexivity.
  - intros Hin. unfold subscriptions. rewrite fold_left_app.
    apply fold_bus_keeps; [reflexivity | exact Hin].
  - intros Hin. unfold live_workers. rewrite fold_left_app.
    apply fold_workers_keeps; [reflexivity | exact Hin].
Qed.

Lemma reenable_leaks_witness :
  In (0, 1)
    (subscriptions
       (trace (after (on_websocket_message sample_loads true enable_frame)
                 inspecting_runtime)))
  /\ self (after (on_websocket_message sample_loads true enable_frame) inspecting_runtime)
     = mkDashboard true (Some 5) (Some 3) (Some 4) (Some 1).
Proof.
  split; [| reflexivity].
  refine (proj1 (proj2 (proj2 (proj2
            (reenable_leaks sample_loads enable_frame
               [("id", JStr "2"); ("method", JStr "enable_inspection")]
               (JStr "2") inspecting_runtime 2 0 1 0
               eq_refl eq_refl eq_refl eq_refl _)))) _).
  - unfold owned; cbn; lia.
  - vm_compute. left. reflexivity.
Defined.

(** Enabling and then disabling leaves the initial session, nothing
    registered with the bus and no worker unjoined. *)
Lemma enable_then_disable_clean :
  let rt := after (on_websocket_message sample_loads true disable_frame)
              inspecting_runtime in
  self rt = init /\ subscriptions (trace rt) = [] /\ live_workers (trace rt) = [].
Proof. vm_compute. repeat split. Qed.

(** ** The enabled flag and teardown (C10) *)

Lemma message_clears_flag_only_on_disable loads flag frame rt :
  inspection_enabled (self rt) = true ->
  inspection_enabled (self (after (on_websocket_message loads flag frame) rt)) = false ->
  exists d,
    decode loads frame = Returns (JDict d)
    /\ dict_get "method" d = Some (JStr "disable_inspection").
Proof.
  intros Hon. unfold after, on_websocket_message.
  destruct (decode loads frame) as [message | e].
  2:{ destruct e; cbn; congruence. }
  unfold dispatch, bind at 1.
  destruct message; try (cbn; congruence).
  unfold subscript at 1. destruct (dict_get "method" d) as [m |] eqn:Hm; [| cbn; congruence].
  cbn [ret].
  destruct (py_eq_str m "ping").
  { run. destruct (dict_get "id" d); cbn; congruence. }
  destruct (py_eq_str m "enable_inspection").
  { destruct flag; run; destruct (dict_get "id" d); cbn; congruence. }
  destruct (py_eq_str m "disable_inspection") eqn:Hdis.
  { intros _. exists d. apply py_eq_str_true in Hdis. now subst m. }
  run. destruct (dict_get "id" d); cbn; congruence.
Qed.

(** C10: [shutdown_relay] never writes [inspection_enabled]; the flag has
    the same value after every call, also after [on_websocket_close], which
    for an inspecting session clears the four relay attributes and leaves
    the flag set.  A message that turns the flag off is a
    [disable_inspection] message. *)
Theorem shutdown_relay_keeps_flag (rt : Runtime) :
  inspection_enabled (self (after shutdown_relay rt)) = inspection_enabled (self rt)
  /\ (exists steps,
        trace (after shutdown_relay rt) = trace rt ++ steps
        /\ filter is_flag_write steps = [])
  /\ inspection_enabled (self (after on_websocket_close rt)) = inspection_enabled (self rt)
  /\ (Inspecting (self rt) ->
      self (after on_websocket_close rt) = mkDashboard true None None None None)
  /\ (forall loads flag frame,
      inspection_enabled (self rt) = true ->
      inspection_enabled (self (after (on_websocket_message loads flag frame) rt)) = false ->
      exists d,
        decode loads frame = Returns (JDict d)
        /\ dict_get "method" d = Some (JStr "disable_inspection")).
Proof.
  split; [| split; [| split; [| split]]].
  - unfold after.
    destruct (shutdown_relay_cases rt)
      as [[_ Hrun] | [[_ Hrun] | (t & e & u & He & _ & _ & _ & Hrun)]];
      rewrite Hrun; cbn; congruence.
  - unfold after.
    destruct (shutdown_relay_cases rt)
      as [[_ Hrun] | [[_ Hrun] | (t & e & u & He & _ & _ & _ & Hrun)]];
      rewrite Hrun; cbn [snd trace].
    + exists []. split; [now rewrite app_nil_r | reflexivity].
    + exists []. split; [now rewrite app_nil_r | reflexivity].
    + eexists. split; reflexivity.
  - unfold after, on_websocket_close, bind at 1, emit.
    match goal with
    | |- context [shutdown_relay ?rt'] =>
        destruct (shutdown_relay_cases rt')
          as [[_ Hrun] | [[_ Hrun] | (t & e & u & He & _ & _ & _ & Hrun)]];
        rewrite Hrun; cbn in *; congruence
    end.
  - intros (t & e & q & u & Hs). unfold after.
    now rewrite (close_inspecting rt t e q u Hs).
  - intros loads flag frame. apply message_clears_flag_only_on_disable.
Qed.

Lemma shutdown_relay_keeps_flag_witness :
  self (after on_websocket_close inspecting_runtime) = mkDashboard true None None None None.
Proof.
  refine (proj1 (proj2 (proj2 (proj2 (shutdown_relay_keeps_flag inspecting_runtime)))) _).
  exists 2, 0, 1, 0. reflexivity.
Defined.

(** ** The relay worker (C5, C9) *)

Section Worker.

Variable env : schedule.

Lemma ends_at_here (fuel i : nat) (client : list client_frame) :
  ends_loop (env i) = true ->
  ends_at env (S fuel) i client (exit_of (env i)) client.
Proof.
  intros He. exists 0. rewrite Nat.add_0_r.
  split; [lia | split; [exact He | split; [intros k Hk; lia | split; [reflexivity |]]]].
  cbn. now rewrite app_nil_r.
Qed.

Lemma ends_at_later (fuel i : nat) (client : list client_frame) r c' :
  ends_loop (env i) = false ->
  ends_at env fuel (S i) (client ++ map push_message (received env i 1)) r c' ->
  ends_at env (S fuel) i client r c'.
Proof.
  intros He (n & Hlt & Hend & Hbefore & Hr & Hc).
  exists (S n). rewrite <- Nat.add_succ_comm.
  split; [lia | split; [exact Hend | split; [| split; [exact Hr |]]]].
  - intros [| k] Hk; [now rewrite Nat.add_0_r |].
    rewrite <- Nat.add_succ_comm. apply Hbefore. lia.
  - rewrite Hc, <- app_assoc, <- map_app. do 2 f_equal.
    cbn [received]. destruct (get (env i)); reflexivity.
Qed.

Lemma relay_events_sound (fuel : nat) :
  forall i client r c',
    relay_events fuel env i client = Some (r, c') ->
    ends_at env fuel i client r c'.
Proof.
  induction fuel as [| fuel IH]; intros i client r c' Hrun; [discriminate |].
  cbn [relay_events] in Hrun.
  assert (Hhere : ends_loop (env i) = true ->
                  Some (exit_of (env i), client) = Some (r, c') ->
                  ends_at env (S fuel) i client r c').
  { intros He Heq. injection Heq as <- <-. now apply ends_at_here. }
  unfold ends_loop, exit_of in Hhere.
  pose proof (ends_at_later fuel i client r c') as Hlater.
  unfold ends_loop in Hlater. cbn [received] in Hlater.
  destruct (is_set (env i)); [now apply Hhere |].
  destruct (get (env i)) as [ev | e].
  - apply Hlater; [reflexivity |]. now apply IH.
  - destruct e; try (now apply Hhere).
    apply Hlater; [reflexivity |]. apply IH. cbn [map]. now rewrite app_nil_r.
Qed.

Lemma relay_events_complete (n : nat) :
  forall i client fuel,
    ends_loop (env (i + n)) = true ->
    (forall k, k < n -> ends_loop (env (i + k)) = false) ->
    n < fuel ->
    relay_events fuel env i client =
      Some (exit_of (env (i + n)), client ++ map push_message (received env i n)).
Proof.
  induction n as [| n IH]; intros i client fuel Hend Hbefore Hlt.
  - destruct fuel as [| fuel]; [lia |].
    rewrite Nat.add_0_r in *. cbn [relay_events received map]. rewrite app_nil_r.
    unfold ends_loop in Hend. unfold exit_of.
    destruct (is_set (env i)); [reflexivity |].
    destruct (get (env i)) as [ev | e]; [discriminate |].
    destruct e; try reflexivity. discriminate.
  - destruct fuel as [| fuel]; [lia |].
    assert (H0 : ends_loop (env i) = false).
    { rewrite <- (Nat.add_0_r i). apply Hbefore. lia. }
    rewrite <- Nat.add_succ_comm in Hend.
    assert (Hb : forall k, k < n -> ends_loop (env (S i + k)) = false).
    { intros k Hk. rewrite Nat.add_succ_comm. apply Hbefore. lia. }
    cbn [relay_events received]. rewrite <- Nat.add_succ_comm.
    unfold ends_loop in H0.
    destruct (is_set (env i)); [discriminate |].
    destruct (get (env i)) as [ev | e].
    + rewrite (IH (S i) _ fuel Hend Hb) by lia.
      now rewrite <- app_assoc.
    + destruct e; try discriminate.
      now rewrite (IH (S i) _ fuel Hend Hb) by lia.
Qed.

Lemma first_ending_exists (n : nat) :
  forall i,
    ends_loop (env (i + n)) = true ->
    exists n0,
      n0 <= n /\ ends_loop (env (i + n0)) = true
      /\ forall k, k < n0 -> ends_loop (env (i + k)) = false.
Proof.
  induction n as [| n IH]; intros i Hend.
  - exists 0. repeat split; [lia | exact Hend | intros k Hk; lia].
  - destruct (ends_loop (env i)) eqn:H0.
    + exists 0. rewrite Nat.add_0_r. repeat split; [lia | exact H0 | intros k Hk; lia].
    + rewrite <- Nat.add_succ_comm in Hend.
      destruct (IH (S i) Hend) as (n0 & Hle & He & Hb).
      exists (S n0). rewrite <- Nat.add_succ_comm.
      repeat split; [lia | exact He |].
      intros [| k] Hk; [now rewrite Nat.add_0_r |].
      rewrite <- Nat.add_succ_comm. apply Hb. lia.
Qed.

Lemma exit_returns (o : observation) :
  ends_loop o = true ->
  exit_of o = Returns tt ->
  is_set o = true \/ get o = Raises EOFError \/ get o = Raises KeyboardInterrupt.
Proof.
  unfold ends_loop, exit_of. destruct (is_set o); [now left | right].
  destruct (get o) as [ev | e]; [discriminate |].
  destruct e; try discriminate; auto.
Qed.

End Worker.

(** C5, as stated, fails: an event that already has a [push] field does not
    keep its value, the assignment of line 163 overwrites it. *)
Lemma push_field_overwritten :
  relay_events 2 push_schedule 0 []
  = Some (Returns tt, [WebsocketFrame_text (JDict [("push", JStr "inspect_traffic")])])
  /\ dict_get "push" [("push", JStr "x")] = Some (JStr "x")
  /\ dict_get "push" [("push", JStr "inspect_traffic")] <> Some (JStr "x").
Proof. repeat split. discriminate. Qed.

(** C5 (amended): for every event the worker receives from its channel, the
    frame queued on the client is the serialization of the event with
    [push] set to ["inspect_traffic"]: every key other than [push] keeps its
    value, so an event without a [push] field of its own has all its fields
    intact; and the frame is part of what the worker has queued when it
    ends. *)
Theorem relayed_event_tagged env i client fuel ev :
  is_set (env i) = false ->
  get (env i) = Returns ev ->
  relay_events (S fuel) env i client
  = relay_events fuel env (S i) (client ++ [push_message ev])
  /\ (exists m,
        push_message ev = WebsocketFrame_text (JDict m)
        /\ dict_get "push" m = Some (JStr "inspect_traffic")
        /\ (forall k, k <> "push" -> dict_get k m = dict_get k ev)
        /\ (dict_get "push" ev = None ->
            forall k v, dict_get k ev = Some v -> dict_get k m = Some v))
  /\ (forall r c',
        relay_events (S fuel) env i client = Some (r, c') ->
        exists later, c' = client ++ push_message ev :: later).
Proof.
  intros Hset Hget.
  assert (Hstep : relay_events (S fuel) env i client
                  = relay_events fuel env (S i) (client ++ [push_message ev])).
  { cbn [relay_events]. now rewrite Hset, Hget. }
  split; [exact Hstep | split].
  - exists (dict_set "push" (JStr "inspect_traffic") ev).
    split; [reflexivity | split; [apply dict_get_set_same | split]].
    + intros k Hk. apply dict_get_set_other. congruence.
    + intros Hnone k v Hkv.
      destruct (String.eqb_spec "push" k) as [<- | Hne]; [congruence |].
      now rewrite dict_get_set_other.
  - intros r c' Hrun. rewrite Hstep in Hrun.
    destruct (relay_events_sound env fuel _ _ _ _ Hrun) as (n & _ & _ & _ & _ & Hc).
    eexists. rewrite Hc, <- app_assoc. reflexivity.
Qed.

Lemma relayed_event_tagged_witness :
  relay_events 3 sample_schedule 0 []
  = relay_events 2 sample_schedule 1
      [WebsocketFrame_text
         (JDict [("request_id", JStr "r1"); ("event_name", JStr "WORK_STARTED");
                 ("push", JStr "inspect_traffic")])].
Proof.
  exact (proj1 (relayed_event_tagged sample_schedule 0 [] 2 sample_event eq_refl eq_refl)).
Defined.

(** C9: the loop leaves through its condition when the stop signal is set
    (read again after every turn, a timeout included), and through [break]
    on [EOFError] and on [KeyboardInterrupt]; a run that returns has left
    at the first such turn, and a run that never meets an ending turn does
    not end.  When the stop signal is eventually set or the channel is
    closed, the loop ends. *)
Theorem relay_events_terminates (env : schedule) (client : list client_frame) :
  (forall fuel i c,
      (is_set (env i) = true ->
       relay_events (S fuel) env i c = Some (Returns tt, c))
      /\ (is_set (env i) = false -> get (env i) = Raises queue_Empty ->
          relay_events (S fuel) env i c = relay_events fuel env (S i) c)
      /\ (is_set (env i) = false -> get (env i) = Raises EOFError ->
          relay_events (S fuel) env i c = Some (Returns tt, c))
      /\ (is_set (env i) = false -> get (env i) = Raises KeyboardInterrupt ->
          relay_events (S fuel) env i c = Some (Returns tt, c)))
  /\ (forall fuel c',
      relay_events fuel env 0 client = Some (Returns tt, c') ->
      exists n,
        first_ending env n
        /\ (is_set (env n) = true \/ get (env n) = Raises EOFError
            \/ get (env n) = Raises KeyboardInterrupt)
        /\ c' = client ++ map push_message (received env 0 n))
  /\ ((forall n, ends_loop (env n) = false) ->
      forall fuel, relay_events fuel env 0 client = None)
  /\ ((exists n, is_set (env n) = true \/ get (env n) = Raises EOFError) ->
      exists fuel n,
        first_ending env n
        /\ forall fuel', fuel <= fuel' ->
           relay_events fuel' env 0 client
           = Some (exit_of (env n), client ++ map push_message (received env 0 n))).
Proof.
  split; [| split; [| split]].
  - intros fuel i c. cbn [relay_events].
    repeat split; intros Hset; try intros Hget; rewrite Hset; try rewrite Hget; reflexivity.
  - intros fuel c' Hrun.
    destruct (relay_events_sound env fuel _ _ _ _ Hrun) as (n & _ & Hend & Hb & Hr & Hc).
    exists n. cbn [Nat.add] in *. repeat split; try assumption.
    now apply exit_returns.
  - intros Hnever fuel.
    destruct (relay_events fuel env 0 client) as [[r c'] |] eqn:Hrun; [| reflexivity].
    destruct (relay_events_sound env fuel _ _ _ _ Hrun) as (n & _ & Hend & _).
    cbn [Nat.add] in Hend. rewrite Hnever in Hend. discriminate.
  - intros (n & Hn).
    assert (Hend : ends_loop (env (0 + n)) = true).
    { cbn [Nat.add]. unfold ends_loop. destruct Hn as [-> | Hn]; [reflexivity |].
      rewrite Hn. now destruct (is_set (env n)). }
    destruct (first_ending_exists env n 0 Hend) as (n0 & _ & He & Hb).
    exists (S n0), n0. split; [split; assumption |].
    intros fuel' Hle.
    apply (relay_events_complete env n0 0 client fuel' He Hb). lia.
Qed.

Lemma relay_events_terminates_witness :
  exists fuel n,
    first_ending sample_schedule n
    /\ forall fuel', fuel <= fuel' ->
       relay_events fuel' sample_schedule 0 []
       = Some (exit_of (sample_schedule n),
               [] ++ map push_message (received sample_schedule 0 n)).
Proof.
  apply (proj2 (proj2 (proj2 (relay_events_terminates sample_schedule [])))).
  exists 2. left. reflexivity.
Defined.

(** * Further properties of the plugin *)

(** ** Routes and [handle_request] *)

Lemma bytes_eqb_eq (x y : bytes) : bytes_eqb x y = true <-> x = y.
Proof.
  revert y. induction x as [| a x IH]; intros [| b y]; cbn; split; intros H;
    try reflexivity; try discriminate.
  - apply andb_true_iff in H as [Hab Hxy].
    apply Byte.byte_dec_bl in Hab. apply IH in Hxy. now subst.
  - injection H as -> ->. apply andb_true_iff. split.
    + now apply Byte.byte_dec_lb.
    + now apply IH.
Qed.

Lemma http_route_paths (p : bytes) :
  In (HTTP, p) routes <->
  p = b_ "/dashboard/" \/ p = b_ "/dashboard" \/ p = b_ "/dashboard/proxy.html".
Proof.
  unfold routes. cbn [In]. split.
  - intros [H | [H | [H | [H | [H | [H | [H | []]]]]]]];
      try discriminate; injection H as <-; auto.
  - intros [-> | [-> | ->]]; auto 10.
Qed.

Lemma https_route_paths (p : bytes) :
  In (HTTPS, p) routes <->
  p = b_ "/dashboard/" \/ p = b_ "/dashboard" \/ p = b_ "/dashboard/proxy.html".
Proof.
  unfold routes. cbn [In]. split.
  - intros [H | [H | [H | [H | [H | [H | [H | []]]]]]]];
      try discriminate; injection H as <-; auto.
  - intros [-> | [-> | ->]]; auto 10.
Qed.

Lemma handle_request_cases (dir : string) (p : bytes) :
  (p = b_ "/dashboard/"
   /\ handle_request dir (Some p)
      = [read_and_build_static_file_response
           (os_path_join dir ["dashboard"; "proxy.html"])])
  \/ ((p = b_ "/dashboard" \/ p = b_ "/dashboard/proxy.html")
      /\ handle_request dir (Some p)
         = [build_http_response PERMANENT_REDIRECT (b_ "Permanent Redirect")
              [(b_ "Location", b_ "/dashboard/");
               (b_ "Content-Length", b_ "0");
               (b_ "Connection", b_ "close")]])
  \/ (p <> b_ "/dashboard/" /\ p <> b_ "/dashboard" /\ p <> b_ "/dashboard/proxy.html"
      /\ handle_request dir (Some p) = []).
Proof.
  unfold handle_request.
  destruct (bytes_eqb p (b_ "/dashboard/")) eqn:E1.
  { left. apply bytes_eqb_eq in E1. now split. }
  destruct (bytes_eqb p (b_ "/dashboard")) eqn:E2.
  { right; left. apply bytes_eqb_eq in E2. split; [now left | reflexivity]. }
  destruct (bytes_eqb p (b_ "/dashboard/proxy.html")) eqn:E3.
  { right; left. apply bytes_eqb_eq in E3. split; [now right | reflexivity]. }
  right; right. cbn [orb].
  repeat split; intros ->.
  - vm_compute in E1. discriminate.
  - vm_compute in E2. discriminate.
  - vm_compute in E3. discriminate.
Qed.

(** X1: [handle_request] answers exactly the paths [routes] registers for
    plain requests: a path is answered (with one response) if and only if
    it is routed for HTTP, which is the case if and only if it is routed
    for HTTPS; every other path, and a request without a path, gets no
    response. *)
Theorem handle_request_answers_routed_paths (dir : string) (p : bytes) :
  (handle_request dir (Some p) <> [] <-> In (HTTP, p) routes)
  /\ (In (HTTP, p) routes <-> In (HTTPS, p) routes)
  /\ length (handle_request dir (Some p)) <= 1
  /\ handle_request dir None = [].
Proof.
  split; [| split; [| split; [| reflexivity]]].
  - rewrite http_route_paths.
    destruct (handle_request_cases dir p)
      as [[Hp Hq] | [[Hp Hq] | (H1 & H2 & H3 & Hq)]]; rewrite Hq; split;
      try discriminate; try tauto.
  - now rewrite http_route_paths, https_route_paths.
  - destruct (handle_request_cases dir p)
      as [[_ Hq] | [[_ Hq] | (_ & _ & _ & Hq)]]; rewrite Hq; cbn; lia.
Qed.

(** X2: a redirect is sent for the two legacy paths only, asks the client
    to close the connection and carries no body, and its [Location] is a
    path that [handle_request] answers with the dashboard page: following
    it takes one hop and never leads to another redirect. *)
Theorem redirects_lead_to_dashboard dir p status reason headers :
  handle_request dir (Some p) = [build_http_response status reason headers] ->
  (p = b_ "/dashboard" \/ p = b_ "/dashboard/proxy.html")
  /\ header_get (b_ "Content-Length") headers = Some (b_ "0")
  /\ header_get (b_ "Connection") headers = Some (b_ "close")
  /\ exists target,
       header_get (b_ "Location") headers = Some target
       /\ In (HTTP, target) routes
       /\ handle_request dir (Some target)
          = [read_and_build_static_file_response
               (os_path_join dir ["dashboard"; "proxy.html"])].
Proof.
  intros Hq.
  destruct (handle_request_cases dir p)
    as [[_ Hq'] | [[Hp Hq'] | (_ & _ & _ & Hq')]]; rewrite Hq' in Hq;
    try discriminate.
  injection Hq as <- <- <-.
  split; [exact Hp |]. split; [reflexivity |]. split; [reflexivity |].
  exists (b_ "/dashboard/"). split; [reflexivity |]. split; [| reflexivity].
  apply http_route_paths. now left.
Qed.

Lemma redirects_lead_to_dashboard_witness :
  exists target,
    header_get (b_ "Location")
      [(b_ "Location", b_ "/dashboard/"); (b_ "Content-Length", b_ "0");
       (b_ "Connection", b_ "close")] = Some target
    /\ In (HTTP, target) routes
    /\ handle_request "public" (Some target)
       = [read_and_build_static_file_response
            (os_path_join "public" ["dashboard"; "proxy.html"])].
Proof.
  exact (proj2 (proj2 (proj2
           (redirects_lead_to_dashboard "public" (b_ "/dashboard/proxy.html")
              PERMANENT_REDIRECT (b_ "Permanent Redirect")
              [(b_ "Location", b_ "/dashboard/"); (b_ "Content-Length", b_ "0");
               (b_ "Connection", b_ "close")] eq_refl)))).
Defined.

(** ** The shapes of a handler run *)

(** Every run of [on_websocket_message] has one of five shapes: an
    exception with nothing done; logging and at most a reply, the session
    untouched; the enabling steps; the flag cleared on a session whose flag
    was clear; teardown and the flag cleared. *)
Lemma on_websocket_message_shapes loads flag frame rt :
  let r := on_websocket_message loads flag frame rt in
  (exists e, r = (Raises e, rt) /\ escapes loads frame e)
  \/ (exists o steps,
        r = (o, mkRuntime (self rt) (objects rt) (uuids rt) (trace rt ++ steps))
        /\ quiet o steps)
  \/ (flag = true
      /\ exists o tail,
           r = (o,
                mkRuntime
                  (mkDashboard true (Some (2 + objects rt)) (Some (objects rt))
                     (Some (1 + objects rt)) (Some (uuids rt)))
                  (3 + objects rt) (1 + uuids rt)
                  (trace rt ++ enable_steps (objects rt) (uuids rt) ++ tail))
           /\ reply_tail o tail "inspection_enabled")
  \/ (inspection_enabled (self rt) = false
      /\ exists o tail,
           r = (o,
                mkRuntime (write (inspection_enabled_is false) (self rt))
                  (objects rt) (uuids rt)
                  (trace rt ++ setattr (inspection_enabled_is false) :: tail))
           /\ reply_tail o tail "inspection_disabled")
  \/ (exists t e u,
        inspection_enabled (self rt) = true
        /\ relay_thread (self rt) = Some t
        /\ relay_shutdown (self rt) = Some e
        /\ relay_sub_id (self rt) = Some u
        /\ exists o tail,
             r = (o,
                  mkRuntime init (objects rt) (uuids rt)
                    (trace rt ++ teardown_steps t e u
                       ++ setattr (inspection_enabled_is false) :: tail))
             /\ reply_tail o tail "inspection_disabled").
Proof.
  intros r.
  assert (Hr : on_websocket_message loads flag frame rt = r) by reflexivity. clearbody r.
  unfold on_websocket_message in Hr.
  destruct (decode loads frame) as [message | e] eqn:Hdec.
  2:{ destruct e;
        try (left; exists e; subst r; split; [reflexivity |];
             unfold escapes; rewrite Hdec; repeat right; split; congruence);
        try (left; eexists; subst r; split; [reflexivity |];
             unfold escapes; rewrite Hdec; repeat right; split; congruence).
      right; left. run_in Hr. subst r. do 2 eexists. split; [tidy; reflexivity |].
      eexists _, []. rewrite app_nil_r. split; [reflexivity |]. split; [reflexivity |].
      left. now split. }
  destruct message as [ | ? | ? | ? | ? | ? | d];
    try (left; exists TypeError; subst r; split; [reflexivity | unfold escapes; tauto]).
  unfold dispatch, bind at 1, subscript at 1 in Hr.
  destruct (dict_get "method" d) as [m |] eqn:Hm.
  2:{ left. exists (KeyError "method"). subst r. split; [reflexivity | unfold escapes; tauto]. }
  cbn [ret] in Hr.
  destruct (py_eq_str m "ping").
  { run_in Hr. destruct (dict_get "id" d) as [id |]; subst r.
    - right; left. do 2 eexists. split; [reflexivity |].
      exists [], [response id "pong"]. repeat split. right. exists "pong". left. now exists id.
    - left. exists (KeyError "id"). split; [reflexivity | unfold escapes; tauto]. }
  destruct (py_eq_str m "enable_inspection").
  { destruct flag.
    - right; right; left. split; [reflexivity |].
      run_in Hr. destruct (dict_get "id" d) as [id |]; subst r; cbn; tidy.
      + eexists _, [response id "inspection_enabled"]. split; [reflexivity |].
        left. now exists id.
      + eexists _, []. split; [reflexivity |]. right. now split.
    - run_in Hr. destruct (dict_get "id" d) as [id |]; subst r.
      + right; left. do 2 eexists. split; [reflexivity |].
        exists [], [response id "not enabled"]. repeat split.
        right. exists "not enabled". left. now exists id.
      + left. exists (KeyError "id"). split; [reflexivity | unfold escapes; tauto]. }
  destruct (py_eq_str m "disable_inspection").
  { unfold bind at 1 in Hr.
    destruct (shutdown_relay_cases rt)
      as [[Hoff Hrun] | [[_ Hrun] | (t & e & u & Hon & Ht & He & Hu & Hrun)]];
      rewrite Hrun in Hr.
    - right; right; right; left. split; [exact Hoff |].
      run_in Hr. destruct (dict_get "id" d) as [id |]; subst r; cbn; tidy.
      + eexists _, [response id "inspection_disabled"]. split; [reflexivity |].
        left. now exists id.
      + eexists _, []. split; [reflexivity |]. right. now split.
    - left. exists AssertionError. subst r. split; [reflexivity | unfold escapes; tauto].
    - right; right; right; right. exists t, e, u. repeat (split; [assumption |]).
      run_in Hr. destruct (dict_get "id" d) as [id |]; subst r; cbn; tidy.
      + eexists _, [response id "inspection_disabled"]. split; [reflexivity |].
        left. now exists id.
      + eexists _, []. split; [reflexivity |]. right. now split. }
  right; left. run_in Hr. destruct (dict_get "id" d) as [id |]; subst r; cbn; tidy.
  - do 2 eexists. split; [reflexivity |].
    eexists [_; _], [response id "not_implemented"]. repeat split.
    right. exists "not_implemented". left. now exists id.
  - do 2 eexists. split; [reflexivity |].
    eexists [_; _], []. repeat split.
    right. exists "not_implemented". right. now split.
Qed.

Lemma reply_tail_filter (p : effect -> bool) o tail text :
  (forall id txt, p (response id txt) = false) ->
  reply_tail o tail text -> filter p tail = [].
Proof.
  intros Hp [(id & _ & ->) | (_ & ->)]; [| reflexivity].
  cbn [filter]. now rewrite Hp.
Qed.

Lemma logs_filter (p : effect -> bool) (logs : list effect) :
  (forall level arg, p (logger_call level arg) = false) ->
  forallb is_log logs = true -> filter p logs = [].
Proof.
  intros Hp. induction logs as [| s logs IH]; [reflexivity |].
  cbn [forallb filter]. intros H. apply andb_true_iff in H as [Hs Hl].
  destruct s; try discriminate. rewrite Hp. now apply IH.
Qed.

Lemma quiet_filter (p : effect -> bool) o steps :
  (forall level arg, p (logger_call level arg) = false) ->
  (forall id txt, p (response id txt) = false) ->
  quiet o steps -> filter p steps = [].
Proof.
  intros Hlog Hrep (logs & tail & -> & Hlogs & Htail).
  rewrite filter_app, (logs_filter p logs Hlog Hlogs). cbn [app].
  destruct Htail as [[_ ->] | [text Ht]]; [reflexivity |].
  now apply (reply_tail_filter p o tail text).
Qed.


(** ** The capability gate *)

(** X3: with [enable_events] false no frame of any kind starts a relay: the
    handler creates no thread, starts none and registers nothing with the
    bus, allocates no object and no identifier, and never turns
    [inspection_enabled] on. *)
Theorem no_relay_without_capability loads frame rt :
  let r := on_websocket_message loads false frame rt in
  (exists steps,
     trace (snd r) = trace rt ++ steps /\ filter starts_relay steps = [])
  /\ objects (snd r) = objects rt
  /\ uuids (snd r) = uuids rt
  /\ (inspection_enabled (self (snd r)) = true -> inspection_enabled (self rt) = true).
Proof.
  intros r.
  destruct (on_websocket_message_shapes loads false frame rt)
    as [(e & Hr & _) | [(o & steps & Hr & Hq) | [(Hflag & _) |
        [(Hoff & o & tail & Hr & Ht) |
         (t & e & u & Hon & _ & _ & _ & o & tail & Hr & Ht)]]]];
    try discriminate; subst r; rewrite Hr; cbn [fst snd self objects uuids trace].
  - repeat split; trivial. exists []. now rewrite app_nil_r.
  - repeat split; trivial. exists steps. split; [reflexivity |].
    now apply (quiet_filter starts_relay o steps).
  - repeat split; try discriminate. eexists. split; [reflexivity |].
    cbn [filter starts_relay]. eapply reply_tail_filter; [intros; reflexivity | eassumption].
  - repeat split; try discriminate. eexists. split; [reflexivity |].
    rewrite filter_app. cbn [filter teardown_steps starts_relay app].
    eapply reply_tail_filter; [intros; reflexivity | eassumption].
Qed.

(** ** Exceptions *)



(** ** Replies and pushes *)

Lemma In_reply_tail o tail text f :
  reply_tail o tail text ->
  In (client_queue f) tail ->
  exists id, f = WebsocketFrame_text (JDict [("id", id); ("response", JStr text)]).
Proof.
  intros [(id & _ & ->) | (_ & ->)] Hin; [| destruct Hin].
  destruct Hin as [H | []]. injection H as <-. now exists id.
Qed.

Lemma In_logs (logs : list effect) f :
  forallb is_log logs = true -> ~ In (client_queue f) logs.
Proof.
  induction logs as [| s logs IH]; cbn [forallb In]; [tauto |].
  intros H. apply andb_true_iff in H as [Hs Hl].
  intros [-> | Hin]; [discriminate | now apply IH].
Qed.

Lemma handler_queues_replies_only loads flag frame rt f :
  In (client_queue f) (trace (after (on_websocket_message loads flag frame) rt)) ->
  In (client_queue f) (trace rt)
  \/ exists id text, f = WebsocketFrame_text (JDict [("id", id); ("response", JStr text)]).
Proof.
  unfold after.
  destruct (on_websocket_message_shapes loads flag frame rt)
    as [(e' & Hr & He) | [(o & steps & Hr & Hq) | [(_ & o & tail & Hr & Ht) |
        [(_ & o & tail & Hr & Ht) |
         (t & e0 & u & _ & _ & _ & _ & o & tail & Hr & Ht)]]]];
    rewrite Hr; cbn [snd trace]; intros Hin.
  - now left.
  - apply in_app_or in Hin as [Hin | Hin]; [now left | right].
    destruct Hq as (logs & tail & -> & Hlogs & Htail).
    apply in_app_or in Hin as [Hin | Hin]; [now apply In_logs in Hin |].
    destruct Htail as [[_ ->] | [text Ht]]; [destruct Hin |].
    destruct (In_reply_tail _ _ _ _ Ht Hin) as [id ->]. eauto.
  - apply in_app_or in Hin as [Hin | Hin]; [now left | right].
    apply in_app_or in Hin as [Hin | Hin].
    + cbn in Hin. repeat (destruct Hin as [Hin | Hin]; [discriminate |]). destruct Hin.
    + destruct (In_reply_tail _ _ _ _ Ht Hin) as [id ->]. eauto.
  - apply in_app_or in Hin as [Hin | Hin]; [now left | right].
    destruct Hin as [Hin | Hin]; [discriminate |].
    destruct (In_reply_tail _ _ _ _ Ht Hin) as [id ->]. eauto.
  - apply in_app_or in Hin as [Hin | Hin]; [now left | right].
    apply in_app_or in Hin as [Hin | Hin].
    + cbn in Hin. repeat (destruct Hin as [Hin | Hin]; [discriminate |]). destruct Hin.
    + destruct Hin as [Hin | Hin]; [discriminate |].
      destruct (In_reply_tail _ _ _ _ Ht Hin) as [id ->]. eauto.
Qed.

(** X5: what reaches the client from the two producers can be told apart by
    the [push] field.  Every frame the message handler queues is a reply
    [{id, response}], which has no [push] field; every frame the relay
    worker queues is an object whose [push] field is ["inspect_traffic"]. *)
Theorem pushes_and_replies_distinct :
  (forall loads flag frame rt f,
      In (client_queue f) (trace (after (on_websocket_message loads flag frame) rt)) ->
      In (client_queue f) (trace rt)
      \/ exists m, f = WebsocketFrame_text (JDict m)
                   /\ dict_get "push" m = None
                   /\ dict_get "response" m <> None)
  /\ (forall env fuel i client r c' f,
      relay_events fuel env i client = Some (r, c') ->
      In f c' ->
      In f client
      \/ exists m, f = WebsocketFrame_text (JDict m)
                   /\ dict_get "push" m = Some (JStr "inspect_traffic")).
Proof.
  split.
  - intros loads flag frame rt f Hin.
    destruct (handler_queues_replies_only loads flag frame rt f Hin)
      as [H | (id & text & ->)]; [now left | right].
    eexists. split; [reflexivity |]. split; [reflexivity | discriminate].
  - intros env fuel i client r c' f Hrun Hin.
    destruct (relay_events_sound env fuel _ _ _ _ Hrun) as (n & _ & _ & _ & _ & ->).
    apply in_app_or in Hin as [Hin | Hin]; [now left | right].
    apply in_map_iff in Hin as (ev & <- & _).
    eexists. split; [reflexivity |]. apply dict_get_set_same.
Qed.

Lemma pushes_and_replies_distinct_witness :
  In (push_message sample_event) []
  \/ exists m, push_message sample_event = WebsocketFrame_text (JDict m)
               /\ dict_get "push" m = Some (JStr "inspect_traffic").
Proof.
  apply (proj2 pushes_and_replies_distinct sample_schedule 3 0 [] (Returns tt)
           [push_message sample_event] (push_message sample_event) eq_refl).
  left. reflexivity.
Defined.

(** ** Sessions reached through messages *)

(** X6: after any sequence of frames on an open connection the session is
    in one of its two states, never in between: either all five attributes
    are as [__init__] left them, or the flag is set and worker, stop signal,
    channel and subscription id are all present; and every object it holds
    was allocated by an earlier step. *)
Theorem messages_keep_session_consistent loads flag rt :
  reachable loads flag rt ->
  consistent (self rt) /\ owned rt /\ group_invariant (self rt) = true.
Proof.
  intros Hr. destruct (reachable_consistent loads flag rt Hr) as [Hc Ho].
  repeat split; try assumption; try apply Ho.
  destruct Hc as [-> | (t & e & q & u & ->)]; reflexivity.
Qed.

Lemma messages_keep_session_consistent_witness :
  consistent (self inspecting_runtime) /\ owned inspecting_runtime
  /\ group_invariant (self inspecting_runtime) = true.
Proof.
  apply (messages_keep_session_consistent sample_loads true).
  apply reach_message, reach_init.
Defined.

Lemma subscriptions_app (tr steps : list effect) :
  subscriptions (tr ++ steps) = fold_left bus_step steps (subscriptions tr).
Proof. unfold subscriptions. apply fold_left_app. Qed.

Lemma live_workers_app (tr steps : list effect) :
  live_workers (tr ++ steps) = fold_left worker_step steps (live_workers tr).
Proof. unfold live_workers. apply fold_left_app. Qed.

Lemma registered_same_session (rt rt' : Runtime) (steps : list effect) :
  self rt' = self rt ->
  trace rt' = trace rt ++ steps ->
  filter stops_relay steps = [] ->
  relay_registered rt -> relay_registered rt'.
Proof.
  intros Hs Ht Hno Hreg t e q u Hself. rewrite Hs in Hself.
  destruct (Hreg t e q u Hself) as (Hsub & Hlive & Hthr). rewrite Ht.
  split; [| split].
  - rewrite subscriptions_app. now apply fold_bus_keeps.
  - rewrite live_workers_app. now apply fold_workers_keeps.
  - apply in_or_app. now left.
Qed.

Lemma registered_when_off (rt : Runtime) :
  inspection_enabled (self rt) = false -> relay_registered rt.
Proof. intros Hoff t e q u Hs. rewrite Hs in Hoff. discriminate. Qed.

Lemma on_websocket_message_registered loads flag frame rt :
  relay_registered rt ->
  relay_registered (after (on_websocket_message loads flag frame) rt).
Proof.
  intros Hreg. unfold after.
  destruct (on_websocket_message_shapes loads flag frame rt)
    as [(e' & Hr & He) | [(o & steps & Hr & Hq) | [(_ & o & tail & Hr & Ht) |
        [(_ & o & tail & Hr & Ht) |
         (t & e0 & u & _ & _ & _ & _ & o & tail & Hr & Ht)]]]];
    rewrite Hr; cbn [snd].
  - exact Hreg.
  - apply (registered_same_session rt _ steps); try reflexivity; [| exact Hreg].
    apply (quiet_filter stops_relay o steps); [reflexivity | reflexivity | exact Hq].
  - intros t e q u Hs. cbn [self trace] in *. injection Hs as <- <- <- <-.
    assert (Hno : filter stops_relay tail = []).
    { eapply reply_tail_filter; [intros; reflexivity | eassumption]. }
    split; [| split].
    + rewrite app_assoc, subscriptions_app. apply fold_bus_keeps; [exact Hno |].
      rewrite subscriptions_app. cbn [fold_left bus_step enable_steps].
      apply in_or_app. right. now left.
    + rewrite app_assoc, live_workers_app. apply fold_workers_keeps; [exact Hno |].
      rewrite live_workers_app. cbn [fold_left worker_step enable_steps].
      apply in_or_app. right. now left.
    + apply in_or_app. right. apply in_or_app. left. cbn. tauto.
  - apply registered_when_off. reflexivity.
  - apply registered_when_off. reflexivity.
Qed.

(** X7: after any sequence of frames, what an inspecting session holds is
    what is live: its subscription id is registered on the bus with the
    session's channel, its worker thread has been started and not joined,
    and that thread was created on the session's stop signal and channel. *)
Theorem session_relay_registered loads flag rt :
  reachable loads flag rt -> relay_registered rt.
Proof.
  induction 1 as [| rt Hr IH | rt frame Hr IH].
  - apply registered_when_off. reflexivity.
  - apply (registered_same_session rt _ [logger_call INFO (LogText "app ws opened")]);
      try reflexivity. exact IH.
  - now apply on_websocket_message_registered.
Qed.

Lemma session_relay_registered_witness :
  In (0, 1) (subscriptions (trace inspecting_runtime))
  /\ In 2 (live_workers (trace inspecting_runtime))
  /\ In (threading_Thread 2 0 1) (trace inspecting_runtime).
Proof.
  apply (session_relay_registered sample_loads true inspecting_runtime
           (reach_message _ _ _ _ (reach_init _ _)) 2 0 1 0 eq_refl).
Defined.

(** ** Teardown and the bus *)

Lemma not_registered_after_unsubscribe (subs : list (uuid * handle)) u q :
  ~ In (u, q) (filter (fun p => negb (Nat.eqb (fst p) u)) subs).
Proof.
  intros H. apply filter_In in H as [_ H]. cbn in H.
  rewrite Nat.eqb_refl in H. discriminate.
Qed.

Lemma not_live_after_join (ws : list handle) t :
  ~ In t (filter (fun t' => negb (Nat.eqb t' t)) ws).
Proof.
  intros H. apply filter_In in H as [_ H].
  rewrite Nat.eqb_refl in H. discriminate.
Qed.

Lemma close_deregisters rt t e q u :
  self rt = mkDashboard true (Some t) (Some e) (Some q) (Some u) ->
  (forall q',
      ~ In (u, q') (subscriptions (trace (after on_websocket_close rt))))
  /\ ~ In t (live_workers (trace (after on_websocket_close rt))).
Proof.
  intros Hs. unfold after. rewrite (close_inspecting rt t e q u Hs). cbn [snd trace].
  split.
  - intros q'. rewrite subscriptions_app. cbn [fold_left bus_step teardown_steps].
    apply not_registered_after_unsubscribe.
  - rewrite live_workers_app. cbn [fold_left worker_step teardown_steps].
    apply not_live_after_join.
Qed.

Lemma disable_deregisters rt t e q u loads flag frame d id :
  self rt = mkDashboard true (Some t) (Some e) (Some q) (Some u) ->
  decode loads frame = Returns (JDict d) ->
  dict_get "method" d = Some (JStr "disable_inspection") ->
  dict_get "id" d = Some id ->
  (forall q',
      ~ In (u, q')
          (subscriptions (trace (after (on_websocket_message loads flag frame) rt))))
  /\ ~ In t (live_workers (trace (after (on_websocket_message loads flag frame) rt))).
Proof.
  intros Hs Hd Hm Hi. unfold after.
  destruct (teardown_inspecting_disable loads flag frame d id rt t e q u Hs Hd Hm Hi)
    as [Hrun _].
  rewrite Hrun. cbn [snd trace]. split.
  - intros q'. rewrite subscriptions_app.
    cbn [fold_left bus_step teardown_steps app response].
    apply not_registered_after_unsubscribe.
  - rewrite live_workers_app.
    cbn [fold_left worker_step teardown_steps app response].
    apply not_live_after_join.
Qed.



(** X9: enabling and then disabling undoes itself from any state of the
    plugin.  Both messages are answered, the attributes end as [__init__]
    set them, the subscription drawn by the first message is off the bus
    and the worker it started has been joined; the steps are those of the
    first message followed by those of teardown. *)
Theorem enable_then_disable_restores loads flag f1 d1 id1 f2 d2 id2 rt :
  decode loads f1 = Returns (JDict d1) ->
  dict_get "method" d1 = Some (JStr "enable_inspection") ->
  dict_get "id" d1 = Some id1 ->
  decode loads f2 = Returns (JDict d2) ->
  dict_get "method" d2 = Some (JStr "disable_inspection") ->
  dict_get "id" d2 = Some id2 ->
  let r1 := on_websocket_message loads true f1 rt in
  let r2 := on_websocket_message loads flag f2 (snd r1) in
  fst r1 = Returns tt
  /\ fst r2 = Returns tt
  /\ self (snd r2) = init
  /\ trace (snd r2)
     = trace rt
       ++ enable_steps (objects rt) (uuids rt)
       ++ [response id1 "inspection_enabled"]
       ++ teardown_steps (2 + objects rt) (objects rt) (uuids rt)
       ++ [setattr (inspection_enabled_is false); response id2 "inspection_disabled"]
  /\ (forall q', ~ In (uuids rt, q') (subscriptions (trace (snd r2))))
  /\ ~ In (2 + objects rt) (live_workers (trace (snd r2))).
Proof.
  intros Hd1 Hm1 Hi1 Hd2 Hm2 Hi2 r1 r2.
  assert (H1 : r1 = _) by apply (enable_on loads f1 d1 id1 rt Hd1 Hm1 Hi1).
  assert (Hs : self (snd r1)
               = mkDashboard true (Some (2 + objects rt)) (Some (objects rt))
                   (Some (1 + objects rt)) (Some (uuids rt))) by now rewrite H1.
  destruct (teardown_inspecting_disable loads flag f2 d2 id2 (snd r1) _ _ _ _
              Hs Hd2 Hm2 Hi2) as [H2 _].
  fold r2 in H2.
  destruct (disable_deregisters (snd r1) _ _ _ _ loads flag f2 d2 id2 Hs Hd2 Hm2 Hi2)
    as (Hsub & Hlive).
  unfold after in Hsub, Hlive. fold r2 in Hsub, Hlive.
  split; [now rewrite H1 |]. split; [now rewrite H2 |]. split; [now rewrite H2 |].
  split; [| split; assumption].
  rewrite H2. cbn [snd trace]. rewrite H1. cbn [snd trace].
  now rewrite <- !app_assoc.
Qed.

Lemma enable_then_disable_restores_witness :
  self (after (on_websocket_message sample_loads true disable_frame) inspecting_runtime)
  = init.
Proof.
  exact (proj1 (proj2 (proj2
           (enable_then_disable_restores sample_loads true
              enable_frame [("id", JStr "2"); ("method", JStr "enable_inspection")]
              (JStr "2")
              disable_frame [("id", JStr "3"); ("method", JStr "disable_inspection")]
              (JStr "3") fresh_runtime
              eq_refl eq_refl eq_refl eq_refl eq_refl eq_refl)))).
Defined.

Lemma close_idle (rt : Runtime) :
  inspection_enabled (self rt) = false ->
  on_websocket_close rt =
    (Returns tt,
     mkRuntime (self rt) (objects rt) (uuids rt)
       (trace rt ++ [logger_call INFO (LogText "app ws closed")])).
Proof.
  intros Hoff. unfold on_websocket_close, bind, emit.
  now rewrite shutdown_relay_idle.
Qed.

(** X10: closing a connection after any sequence of frames never raises and
    never queues a frame on the client; it leaves worker, stop signal,
    channel and subscription id at [None], and the session's subscription
    and worker, if it had any, deregistered and joined. *)
Theorem close_after_messages loads flag rt :
  reachable loads flag rt ->
  let r := on_websocket_close rt in
  fst r = Returns tt
  /\ replies (trace (snd r)) = replies (trace rt)
  /\ relay_thread (self (snd r)) = None
  /\ relay_shutdown (self (snd r)) = None
  /\ relay_channel (self (snd r)) = None
  /\ relay_sub_id (self (snd r)) = None
  /\ (forall u q, relay_sub_id (self rt) = Some u ->
      ~ In (u, q) (subscriptions (trace (snd r))))
  /\ (forall t, relay_thread (self rt) = Some t ->
      ~ In t (live_workers (trace (snd r)))).
Proof.
  intros Hr r.
  destruct (reachable_consistent loads flag rt Hr) as [[Hidle | (t & e & q & u & Hs)] _].
  - unfold Idle in Hidle. subst r. rewrite close_idle by now rewrite Hidle.
    cbn [fst snd self trace]. rewrite Hidle. cbn [init relay_thread relay_shutdown
      relay_channel relay_sub_id].
    repeat split; try discriminate. now apply replies_silent.
  - destruct (close_deregisters rt t e q u Hs) as (Hsub & Hlive).
    unfold after in Hsub, Hlive. fold r in Hsub, Hlive.
    assert (Hrun : r = _) by apply (close_inspecting rt t e q u Hs).
    rewrite Hs. cbn [relay_sub_id relay_thread].
    split; [now rewrite Hrun |]. split.
    { rewrite Hrun. cbn [snd trace]. now apply replies_silent. }
    split; [now rewrite Hrun |]. split; [now rewrite Hrun |].
    split; [now rewrite Hrun |]. split; [now rewrite Hrun |].
    split.
    + intros u' q' Hu. injection Hu as <-. apply Hsub.
    + intros t' Ht. injection Ht as <-. exact Hlive.
Qed.

Lemma close_after_messages_witness :
  fst (on_websocket_close inspecting_runtime) = Returns tt.
Proof.
  exact (proj1 (close_after_messages sample_loads true inspecting_runtime
                  (reach_message _ _ _ _ (reach_init _ _)))).
Defined.

(** ** One reply per control message *)

(** X11: a control message with [method] and [id], received in either
    session state, is answered exactly once: the handler returns, the reply
    is its last step, it echoes the message's [id], and its [response] is
    the one the method and the capability flag select; the session is again
    in one of its two states. *)
Theorem well_formed_message_one_reply loads flag frame d m id rt :
  decode loads frame = Returns (JDict d) ->
  dict_get "method" d = Some m ->
  dict_get "id" d = Some id ->
  consistent (self rt) ->
  let r := on_websocket_message loads flag frame rt in
  fst r = Returns tt
  /\ (exists steps,
        trace (snd r) = trace rt ++ steps ++ [response id (response_text flag m)]
        /\ replies steps = [])
  /\ replies (trace (snd r))
     = replies (trace rt) ++ [response id (response_text flag m)]
  /\ consistent (self (snd r)).
Proof.
  intros Hd Hm Hi Hc r.
  assert (Hcons : consistent (self (snd r))).
  { apply (on_websocket_message_consistent loads flag frame rt Hc). }
  assert (Hmain : fst r = Returns tt
                  /\ exists steps,
                       trace (snd r)
                       = trace rt ++ steps ++ [response id (response_text flag m)]
                       /\ replies steps = []).
  { clear Hcons.
    assert (Hr : on_websocket_message loads flag frame rt = r) by reflexivity.
    clearbody r. rewrite (decode_dispatch _ _ _ _ Hd) in Hr.
    unfold dispatch, bind at 1, subscript at 1 in Hr. rewrite Hm in Hr. cbn [ret] in Hr.
    unfold response_text.
    destruct (py_eq_str m "ping").
    { run_in Hr. rewrite Hi in Hr. run_in Hr. subst r. cbn [fst snd trace].
      split; [reflexivity |]. exists []. split; reflexivity. }
    destruct (py_eq_str m "enable_inspection").
    { destruct flag; run_in Hr; rewrite Hi in Hr; run_in Hr; subst r; cbn [fst snd trace].
      - split; [reflexivity |]. exists (enable_steps (objects rt) (uuids rt)).
        split; [tidy; reflexivity | reflexivity].
      - split; [reflexivity |]. exists []. split; reflexivity. }
    destruct (py_eq_str m "disable_inspection").
    { unfold bind at 1 in Hr.
      destruct (shutdown_relay_consistent rt Hc) as (steps & Hrun & Hsil).
      rewrite Hrun in Hr. run_in Hr. rewrite Hi in Hr. run_in Hr. subst r. cbn [fst snd trace].
      split; [reflexivity |].
      exists (steps ++ [setattr (inspection_enabled_is false)]).
      split; [now rewrite <- !app_assoc |].
      rewrite replies_app, Hsil. reflexivity. }
    run_in Hr. rewrite Hi in Hr. run_in Hr. subst r. cbn [fst snd trace].
    split; [reflexivity |].
    exists [logger_call INFO (LogData (data frame));
            logger_call INFO (LogOpcode (opcode frame))].
    split; [tidy; reflexivity | reflexivity]. }
  destruct Hmain as (Hret & steps & Htr & Hsil).
  split; [exact Hret |]. split; [now exists steps |]. split; [| exact Hcons].
  rewrite Htr, !replies_app, Hsil. reflexivity.
Qed.

Lemma well_formed_message_one_reply_witness :
  replies (trace (snd (on_websocket_message sample_loads true
                         (text_frame [("id", "4"); ("method", "status")])
                         inspecting_runtime)))
  = replies (trace inspecting_runtime) ++ [response (JStr "4") "not_implemented"].
Proof.
  refine (proj1 (proj2 (proj2
            (well_formed_message_one_reply sample_loads true
               (text_frame [("id", "4"); ("method", "status")])
               [("id", JStr "4"); ("method", JStr "status")] (JStr "status") (JStr "4")
               inspecting_runtime eq_refl eq_refl eq_refl _)))).
  right. exists 2, 0, 1, 0. reflexivity.
Defined.

(** X12: a message whose method is neither [enable_inspection] nor
    [disable_inspection] ([ping], an unknown method, a method that is not a
    string) leaves the session alone in every state, with or without [id]:
    no attribute changes, nothing is allocated, and the steps are log calls
    and at most the reply, so no thread, bus or stop-signal call is made.
    With an [id], [ping] is answered ["pong"] with no other step, and any
    other such method is logged (payload, then opcode) and answered
    ["not_implemented"]. *)
Theorem other_methods_leave_session_alone loads flag frame d m rt :
  decode loads frame = Returns (JDict d) ->
  dict_get "method" d = Some m ->
  leaves_relay_alone m = true ->
  let r := on_websocket_message loads flag frame rt in
  self (snd r) = self rt
  /\ objects (snd r) = objects rt
  /\ uuids (snd r) = uuids rt
  /\ (exists steps,
        trace (snd r) = trace rt ++ steps
        /\ quiet (fst r) steps
        /\ filter starts_relay steps = []
        /\ filter stops_relay steps = []
        /\ filter is_flag_write steps = [])
  /\ (forall id, dict_get "id" d = Some id ->
      r = (Returns tt,
           mkRuntime (self rt) (objects rt) (uuids rt)
             (trace rt ++
              if py_eq_str m "ping" then [response id "pong"]
              else [logger_call INFO (LogData (data frame));
                    logger_call INFO (LogOpcode (opcode frame));
                    response id "not_implemented"]))).
Proof.
  intros Hd Hm Halone r.
  unfold leaves_relay_alone in Halone. apply andb_true_iff in Halone as [Hen Hdis].
  apply negb_true_iff in Hen, Hdis.
  assert (Hr : on_websocket_message loads flag frame rt = r) by reflexivity.
  clearbody r. rewrite (decode_dispatch _ _ _ _ Hd) in Hr.
  unfold dispatch, bind at 1, subscript at 1 in Hr. rewrite Hm in Hr. cbn [ret] in Hr.
  rewrite Hen, Hdis in Hr.
  assert (Hquiet : forall o steps,
             quiet o steps ->
             filter starts_relay steps = [] /\ filter stops_relay steps = []
             /\ filter is_flag_write steps = []).
  { intros o steps Hq. repeat split.
    - apply (quiet_filter starts_relay o steps); [reflexivity | reflexivity | exact Hq].
    - apply (quiet_filter stops_relay o steps); [reflexivity | reflexivity | exact Hq].
    - apply (quiet_filter is_flag_write o steps); [reflexivity | reflexivity | exact Hq]. }
  assert (Hshape : exists o steps,
             r = (o, mkRuntime (self rt) (objects rt) (uuids rt) (trace rt ++ steps))
             /\ quiet o steps
             /\ forall id, dict_get "id" d = Some id ->
                  o = Returns tt
                  /\ steps = if py_eq_str m "ping" then [response id "pong"]
                             else [logger_call INFO (LogData (data frame));
                                   logger_call INFO (LogOpcode (opcode frame));
                                   response id "not_implemented"]).
  { destruct (py_eq_str m "ping").
    - run_in Hr. destruct (dict_get "id" d) as [id |]; subst r.
      + exists (Returns tt), [response id "pong"]. split; [reflexivity |]. split.
        * exists [], [response id "pong"]. repeat split. right. exists "pong".
          left. now exists id.
        * intros id' H. injection H as <-. now split.
      + exists (Raises (KeyError "id")), []. rewrite app_nil_r.
        split; [now destruct rt |]. split; [| discriminate].
        exists [], []. repeat split. right. exists "pong". right. now split.
    - run_in Hr. destruct (dict_get "id" d) as [id |]; subst r; cbn; tidy.
      + do 2 eexists. split; [reflexivity |]. split.
        * eexists [_; _], [response id "not_implemented"]. repeat split.
          right. exists "not_implemented". left. now exists id.
        * intros id' H. injection H as <-. now split.
      + do 2 eexists. split; [reflexivity |]. split; [| discriminate].
        eexists [_; _], []. repeat split.
        right. exists "not_implemented". right. now split. }
  destruct Hshape as (o & steps & -> & Hq & Hid). cbn [fst snd self objects uuids trace].
  destruct (Hquiet o steps Hq) as (H1 & H2 & H3).
  repeat split; try reflexivity.
  - exists steps. repeat split; assumption.
  - intros id Hi. destruct (Hid id Hi) as [-> ->]. reflexivity.
Qed.

Lemma other_methods_leave_session_alone_witness :
  on_websocket_message sample_loads true (text_frame [("id", "1"); ("method", "ping")])
    inspecting_runtime
  = (Returns tt,
     mkRuntime (self inspecting_runtime) 3 1
       (trace inspecting_runtime ++ [response (JStr "1") "pong"])).
Proof.
  exact (proj2 (proj2 (proj2 (proj2
           (other_methods_leave_session_alone sample_loads true
              (text_frame [("id", "1"); ("method", "ping")])
              [("id", JStr "1"); ("method", JStr "ping")] (JStr "ping")
              inspecting_runtime eq_refl eq_refl eq_refl))))
           (JStr "1") eq_refl).
Defined.

(** ** Field order of a relayed event *)

Lemma dict_set_keys (k : string) (v : json) (d : pydict) :
  map fst (dict_set k v d)
  = match dict_get k d with
    | Some _ => map fst d
    | None => map fst d ++ [k]
    end.
Proof.
  induction d as [| [k' v'] rest IH]; [reflexivity |].
  cbn [dict_set dict_get]. destruct (String.eqb k' k) eqn:E.
  - apply String.eqb_eq in E. now subst.
  - cbn [map fst]. rewrite IH. now destruct (dict_get k rest).
Qed.

(** X13: the relayed message lists the event's fields in the event's own
    order.  An event without a [push] field gets it as its last field, one
    field more; an event that has one keeps its fields where they are, and
    tagging an already tagged event changes nothing. *)
Theorem push_tag_keeps_field_order (ev : pydict) :
  let tagged := dict_set "push" (JStr "inspect_traffic") ev in
  push_message ev = WebsocketFrame_text (JDict tagged)
  /\ (dict_get "push" ev = None ->
      map fst tagged = map fst ev ++ ["push"]
      /\ tagged = ev ++ [("push", JStr "inspect_traffic")])
  /\ (dict_get "push" ev <> None ->
      map fst tagged = map fst ev /\ length tagged = length ev)
  /\ dict_set "push" (JStr "inspect_traffic") tagged = tagged.
Proof.
  intros tagged. subst tagged. split; [reflexivity |]. split; [| split].
  - intros Hnone. split.
    + now rewrite dict_set_keys, Hnone.
    + induction ev as [| [k v] rest IH]; [reflexivity |].
      cbn [dict_get] in Hnone. cbn [dict_set app].
      destruct (String.eqb k "push"); [discriminate |].
      now rewrite IH.
  - intros Hsome. assert (Hk := dict_set_keys "push" (JStr "inspect_traffic") ev).
    destruct (dict_get "push" ev); [| contradiction].
    split; [exact Hk |].
    now rewrite <- (length_map fst), Hk, length_map.
  - induction ev as [| [k v] rest IH]; [reflexivity |].
    cbn [dict_set]. destruct (String.eqb k "push") eqn:E.
    + cbn [dict_set]. now rewrite String.eqb_refl.
    + cbn [dict_set]. rewrite E. now rewrite IH.
Qed.

Lemma push_tag_keeps_field_order_witness :
  map fst (dict_set "push" (JStr "inspect_traffic") sample_event)
  = map fst sample_event ++ ["push"].
Proof.
  exact (proj1 (proj1 (proj2 (push_tag_keeps_field_order sample_event)) eq_refl)).
Defined.
